(** * Aggregation and normalisation core of the multi-account Stripe report

    A shallow embedding of [server/services/stripeService.ts], of the
    report routes ([/multi/:accountIds], [/detailed/:accountIds]) and of
    the IP helpers of [client/src/services/stripeSigmaService.js].

    Conventions.
    - A JavaScript number holding an amount is an exact rational ([Q]);
      counters and Unix timestamps are integers ([Z]).
    - A calendar day is its day number (days since 1970-01-01);
      moment's [format('YYYY-MM-DD')] is the one-to-one rendering of that
      number, so bucket keys and the [date] field are day numbers.
    - A plain JS object used as a dictionary with non-numeric keys keeps
      insertion order: it is an association list.  Stripe metadata, only
      ever looked up by key, is a [gmap string string]. *)

From Stdlib Require Import ZArith QArith Qround Lia Lqa List Ascii String
  Permutation.
From stdpp Require Import base gmap strings.
From Equations Require Import Equations.
Import ListNotations.

Local Open Scope string_scope.
Local Open Scope list_scope.
Local Open Scope Z_scope.

(** ** Stripe records *)

(** The nested [payment_intent] of a charge: absent, an identifier when
    the reference is not expanded, or the expanded object, of which only
    the metadata is read. *)
Inductive PaymentIntentRef :=
| PiNull
| PiId (pi_id : string)
| PiObject (pi_metadata : option (gmap string string)).

(** The nested [source] of a charge, same three shapes. *)
Inductive SourceRef :=
| SrcNull
| SrcId (src_id : string)
| SrcObject (src_metadata : option (gmap string string)).

Module Charge.
Record t := mk {
  id : string;
  created : Z;
  amount : Z;
  metadata : option (gmap string string);
  payment_intent : PaymentIntentRef;
  source : SourceRef
}.
End Charge.

Module Refund.
Record t := mk { id : string; created : Z; amount : Z }.
End Refund.

Module Dispute.
Record t := mk { id : string; created : Z; amount : Z }.
End Dispute.

Module PaymentIntent.
Record t := mk {
  id : string;
  created : Z;
  amount : Z;
  metadata : option (gmap string string)
}.
End PaymentIntent.

Module Event.
Record t := mk { id : string; created : Z; type : string }.
End Event.

(** ** Numbers *)

(** [Math.round]: the nearest integer, halves towards plus infinity. *)
Definition Math_round (x : Q) : Z := Qfloor (x + (1 # 2)).

(** [Math.round(x * 100) / 100], the two-decimals rounding used all over
    the service. *)
Definition round2 (x : Q) : Q := inject_Z (Math_round (x * 100)) / 100.

(** [amount / 100]: minor units to major units. *)
Definition cents (amount : Z) : Q := inject_Z amount / 100.

(** ** Time zones and calendar days *)

(** A time zone gives the offset from UTC, in seconds, at an instant. *)
Definition timezone := Z -> Z.

Definition UTC : timezone := fun _ => 0.

(** [moment.unix(created).tz(timezone).format('YYYY-MM-DD')]. *)
Definition local_day (tz : timezone) (created : Z) : Z :=
  (created + tz created) / 86400.

(** ** Daily buckets *)

Record TransactionData := mkTransactionData {
  date : Z;
  charges_count : Z;
  charges_amount : Q;
  refunds_count : Z;
  refunds_amount : Q;
  chargebacks_count : Z;
  chargebacks_amount : Q;
  declines_count : Z;
  aprvl_pct : Q;
  totals_count : Z;
  totals_amount : Q;
  account_id : string
}.

(** The object literal of the initialisation loop. *)
Definition empty_day (dateStr : Z) (accountId : string) : TransactionData :=
  {| date := dateStr;
     charges_count := 0; charges_amount := 0;
     refunds_count := 0; refunds_amount := 0;
     chargebacks_count := 0; chargebacks_amount := 0;
     declines_count := 0;
     aprvl_pct := 100;
     totals_count := 0; totals_amount := 0;
     account_id := accountId |}.

(** *** [Record<string, TransactionData>] in insertion order *)

Definition DailyData := list (Z * TransactionData).

Fixpoint obj_get (k : Z) (o : DailyData) : option TransactionData :=
  match o with
  | [] => None
  | (k', v) :: o' => if k' =? k then Some v else obj_get k o'
  end.

(** [o[k] = v]: an existing key keeps its place, a new one goes last. *)
Fixpoint obj_set (k : Z) (v : TransactionData) (o : DailyData) : DailyData :=
  match o with
  | [] => [(k, v)]
  | (k', v') :: o' =>
      if k' =? k then (k', v) :: o' else (k', v') :: obj_set k v o'
  end.

Definition obj_keys (o : DailyData) : list Z := map fst o.
Definition obj_values (o : DailyData) : list TransactionData := map snd o.

(** *** The initialisation loop

    [while (currentDate.isSameOrBefore(endMoment, 'day')) { ...;
    currentDate.add(1, 'day') }]. *)
Equations? init_days (currentDate endMoment : Z) (accountId : string)
    (dailyData : DailyData) : DailyData
    by wf (Z.to_nat (endMoment - currentDate + 1)) lt :=
  init_days currentDate endMoment accountId dailyData
    with Z_le_gt_dec currentDate endMoment => {
    | left _ :=
        init_days (currentDate + 1) endMoment accountId
          (obj_set currentDate (empty_day currentDate accountId) dailyData);
    | right _ := dailyData }.
Proof. lia. Qed.

(** *** The four [forEach] passes *)

Definition on_charge (charge_amount : Z) (day : TransactionData) : TransactionData :=
  {| date := date day;
     charges_count := charges_count day + 1;
     charges_amount := charges_amount day + cents charge_amount;
     refunds_count := refunds_count day;
     refunds_amount := refunds_amount day;
     chargebacks_count := chargebacks_count day;
     chargebacks_amount := chargebacks_amount day;
     declines_count := declines_count day;
     aprvl_pct := aprvl_pct day;
     totals_count := totals_count day + 1;
     totals_amount := totals_amount day + cents charge_amount;
     account_id := account_id day |}.

Definition on_refund (refund_amount : Z) (day : TransactionData) : TransactionData :=
  {| date := date day;
     charges_count := charges_count day;
     charges_amount := charges_amount day;
     refunds_count := refunds_count day + 1;
     refunds_amount := refunds_amount day + cents refund_amount;
     chargebacks_count := chargebacks_count day;
     chargebacks_amount := chargebacks_amount day;
     declines_count := declines_count day;
     aprvl_pct := aprvl_pct day;
     totals_count := totals_count day + 1;
     totals_amount := totals_amount day - cents refund_amount;
     account_id := account_id day |}.

Definition on_chargeback (chargeback_amount : Z) (day : TransactionData) : TransactionData :=
  {| date := date day;
     charges_count := charges_count day;
     charges_amount := charges_amount day;
     refunds_count := refunds_count day;
     refunds_amount := refunds_amount day;
     chargebacks_count := chargebacks_count day + 1;
     chargebacks_amount := chargebacks_amount day + cents chargeback_amount;
     declines_count := declines_count day;
     aprvl_pct := aprvl_pct day;
     totals_count := totals_count day + 1;
     totals_amount := totals_amount day - cents chargeback_amount;
     account_id := account_id day |}.

Definition on_decline (day : TransactionData) : TransactionData :=
  {| date := date day;
     charges_count := charges_count day;
     charges_amount := charges_amount day;
     refunds_count := refunds_count day;
     refunds_amount := refunds_amount day;
     chargebacks_count := chargebacks_count day;
     chargebacks_amount := chargebacks_amount day;
     declines_count := declines_count day + 1;
     aprvl_pct := aprvl_pct day;
     totals_count := totals_count day + 1;
     totals_amount := totals_amount day;
     account_id := account_id day |}.

(** [if (dailyData[dateStr]) { dailyData[dateStr].f ... }]: a record whose
    local day has no bucket is dropped. *)
Definition touch (dateStr : Z) (f : TransactionData -> TransactionData)
    (dailyData : DailyData) : DailyData :=
  match obj_get dateStr dailyData with
  | Some day => obj_set dateStr (f day) dailyData
  | None => dailyData
  end.

Definition process_charges (tz : timezone) (charges : list Charge.t)
    (dailyData : DailyData) : DailyData :=
  fold_left (fun o charge =>
    touch (local_day tz (Charge.created charge))
          (on_charge (Charge.amount charge)) o) charges dailyData.

Definition process_refunds (tz : timezone) (refunds : list Refund.t)
    (dailyData : DailyData) : DailyData :=
  fold_left (fun o refund =>
    touch (local_day tz (Refund.created refund))
          (on_refund (Refund.amount refund)) o) refunds dailyData.

Definition process_chargebacks (tz : timezone) (chargebacks : list Dispute.t)
    (dailyData : DailyData) : DailyData :=
  fold_left (fun o chargeback =>
    touch (local_day tz (Dispute.created chargeback))
          (on_chargeback (Dispute.amount chargeback)) o) chargebacks dailyData.

Definition process_declines (tz : timezone) (declines : list Charge.t)
    (dailyData : DailyData) : DailyData :=
  fold_left (fun o decline =>
    touch (local_day tz (Charge.created decline)) on_decline o)
    declines dailyData.

(** *** The closing pass: rounding and approval percentage *)

Definition approval (charges declines : Z) : Q :=
  let totalAttempts := charges + declines in
  if 0 <? totalAttempts
  then inject_Z (Math_round
         (inject_Z charges / inject_Z totalAttempts * 100 * 100)) / 100
  else 100.

Definition finish_day (day : TransactionData) : TransactionData :=
  {| date := date day;
     charges_count := charges_count day;
     charges_amount := round2 (charges_amount day);
     refunds_count := refunds_count day;
     refunds_amount := round2 (refunds_amount day);
     chargebacks_count := chargebacks_count day;
     chargebacks_amount := round2 (chargebacks_amount day);
     declines_count := declines_count day;
     aprvl_pct := approval (charges_count day) (declines_count day);
     totals_count := totals_count day;
     totals_amount := round2 (totals_amount day);
     account_id := account_id day |}.

Definition groupTransactionsByDate
    (charges : list Charge.t) (refunds : list Refund.t)
    (chargebacks : list Dispute.t) (declines : list Charge.t)
    (startDate endDate : Z) (tz : timezone) (accountId : string)
  : list TransactionData :=
  let dailyData := init_days startDate endDate accountId [] in
  let dailyData := process_charges tz charges dailyData in
  let dailyData := process_refunds tz refunds dailyData in
  let dailyData := process_chargebacks tz chargebacks dailyData in
  let dailyData := process_declines tz declines dailyData in
  map finish_day (obj_values dailyData).

(** ** The paginated collectors *)

(** The parameters of a [list] call: [limit], the [created] window
    ([gte], [lte]) when there is one, and the cursor when it is set. *)
Module ListParams.
Record t := mk {
  limit : Z;
  created : option (Z * Z);
  starting_after : option string
}.
End ListParams.

Inductive Endpoint := ChargesList | RefundsList | EventsList.

(** One upstream call, as issued: endpoint, parameters and the
    [stripeAccount] request option. *)
Module Call.
Record t := mk {
  endpoint : Endpoint;
  params : ListParams.t;
  stripeAccount : string
}.
End Call.

Module Page.
Record t (R : Type) := mk { data : list R; has_more : bool }.
Arguments mk {R} _ _.
Arguments data {R} _.
Arguments has_more {R} _.
End Page.

(** The Stripe client seen from the service.  A response may depend on
    every call issued before it (first argument); [None] is a rejected
    promise, that is, a call that throws. *)
Record Upstream := mkUpstream {
  charges_list :
    list Call.t -> ListParams.t -> string -> option (Page.t Charge.t);
  refunds_list :
    list Call.t -> ListParams.t -> string -> option (Page.t Refund.t);
  events_list :
    list Call.t -> ListParams.t -> string -> option (Page.t Event.t)
}.

(** The variables of one pagination loop, and the calls issued so far. *)
Record Loop (R : Type) := mkLoop {
  collected : list R;
  hasMore : bool;
  startingAfter : option string;
  calls : list Call.t
}.
Arguments mkLoop {R} _ _ _ _.
Arguments collected {R} _.
Arguments hasMore {R} _.
Arguments startingAfter {R} _.
Arguments calls {R} _.

(** [response.data[response.data.length - 1]?.id || null]. *)
Definition last_id {R : Type} (id : R -> string) (data : list R)
  : option string :=
  match last data with
  | Some r => if String.eqb (id r) "" then None else Some (id r)
  | None => None
  end.

(** The [params] literal followed by
    [if (startingAfter) params.starting_after = startingAfter]. *)
Definition page_params (startTimestamp endTimestamp : Z)
    (startingAfter : option string) : ListParams.t :=
  {| ListParams.limit := 100;
     ListParams.created := Some (startTimestamp, endTimestamp);
     ListParams.starting_after :=
       match startingAfter with
       | Some cursor => if String.eqb cursor "" then None else Some cursor
       | None => None
       end |}.

(** [while (hasMore) body]: [fuel] bounds the number of iterations, and
    [None] says that the loop was still running when it ran out. *)
Fixpoint while_hasMore {R : Type} (fuel : nat) (body : Loop R -> Loop R)
    (st : Loop R) : option (Loop R) :=
  if hasMore st then
    match fuel with
    | O => None
    | S fuel' => while_hasMore fuel' body (body st)
    end
  else Some st.

Definition start_loop {R : Type} (calls : list Call.t) : Loop R :=
  {| collected := []; hasMore := true; startingAfter := None;
     calls := calls |}.

(** *** [getCharges] *)

Definition getCharges_body (stripeInstance : Upstream)
    (connectedAccountId : string) (startTimestamp endTimestamp : Z)
    (st : Loop Charge.t) : Loop Charge.t :=
  let params := page_params startTimestamp endTimestamp (startingAfter st) in
  let issued := calls st ++ [Call.mk ChargesList params connectedAccountId] in
  match charges_list stripeInstance (calls st) params connectedAccountId with
  | Some response =>
      {| collected := collected st ++ Page.data response;
         hasMore := Page.has_more response;
         startingAfter := last_id Charge.id (Page.data response);
         calls := issued |}
  | None =>
      {| collected := collected st;
         hasMore := false;
         startingAfter := startingAfter st;
         calls := issued |}
  end.

(** The logging-only probe [charges.list({ limit: 5 })] that follows an
    empty collection; its answer is printed and dropped. *)
Definition probe_call (connectedAccountId : string) : Call.t :=
  Call.mk ChargesList
    {| ListParams.limit := 5; ListParams.created := None;
       ListParams.starting_after := None |}
    connectedAccountId.

Definition getCharges (stripeInstance : Upstream)
    (connectedAccountId : string) (startTimestamp endTimestamp : Z)
    (fuel : nat) (calls0 : list Call.t)
  : option (list Charge.t * list Call.t) :=
  match while_hasMore fuel
          (getCharges_body stripeInstance connectedAccountId
             startTimestamp endTimestamp)
          (start_loop calls0) with
  | Some st =>
      let charges := collected st in
      if (Z.of_nat (length charges) =? 0)
      then Some (charges, calls st ++ [probe_call connectedAccountId])
      else Some (charges, calls st)
  | None => None
  end.

(** *** [getRefunds] *)

Definition getRefunds_body (stripeInstance : Upstream)
    (connectedAccountId : string) (startTimestamp endTimestamp : Z)
    (st : Loop Refund.t) : Loop Refund.t :=
  let params := page_params startTimestamp endTimestamp (startingAfter st) in
  let issued := calls st ++ [Call.mk RefundsList params connectedAccountId] in
  match refunds_list stripeInstance (calls st) params connectedAccountId with
  | Some response =>
      {| collected := collected st ++ Page.data response;
         hasMore := Page.has_more response;
         startingAfter := last_id Refund.id (Page.data response);
         calls := issued |}
  | None =>
      {| collected := collected st;
         hasMore := false;
         startingAfter := startingAfter st;
         calls := issued |}
  end.

Definition getRefunds (stripeInstance : Upstream)
    (connectedAccountId : string) (startTimestamp endTimestamp : Z)
    (fuel : nat) (calls0 : list Call.t)
  : option (list Refund.t * list Call.t) :=
  match while_hasMore fuel
          (getRefunds_body stripeInstance connectedAccountId
             startTimestamp endTimestamp)
          (start_loop calls0) with
  | Some st => Some (collected st, calls st)
  | None => None
  end.

(** *** [getDeclines] *)

Definition getDeclines_body (stripeInstance : Upstream)
    (connectedAccountId : string) (startTimestamp endTimestamp : Z)
    (st : Loop Charge.t) : Loop Charge.t :=
  let params := page_params startTimestamp endTimestamp (startingAfter st) in
  let issued := calls st ++ [Call.mk ChargesList params connectedAccountId] in
  match charges_list stripeInstance (calls st) params connectedAccountId with
  | Some response =>
      {| collected := collected st ++ Page.data response;
         hasMore := Page.has_more response;
         startingAfter := last_id Charge.id (Page.data response);
         calls := issued |}
  | None =>
      {| collected := collected st;
         hasMore := false;
         startingAfter := startingAfter st;
         calls := issued |}
  end.

Definition getDeclines (stripeInstance : Upstream)
    (connectedAccountId : string) (startTimestamp endTimestamp : Z)
    (fuel : nat) (calls0 : list Call.t)
  : option (list Charge.t * list Call.t) :=
  match while_hasMore fuel
          (getDeclines_body stripeInstance connectedAccountId
             startTimestamp endTimestamp)
          (start_loop calls0) with
  | Some st => Some (collected st, calls st)
  | None => None
  end.

(** *** [getEvents] *)

Definition paymentRelated (event : Event.t) : bool :=
  String.prefix "charge." (Event.type event)
  || String.prefix "payment_intent." (Event.type event)
  || String.prefix "refund." (Event.type event)
  || String.prefix "dispute." (Event.type event)
  || String.prefix "balance." (Event.type event).

Definition getEvents_body (stripeInstance : Upstream)
    (connectedAccountId : string) (startTimestamp endTimestamp : Z)
    (st : Loop Event.t) : Loop Event.t :=
  let params := page_params startTimestamp endTimestamp (startingAfter st) in
  let issued := calls st ++ [Call.mk EventsList params connectedAccountId] in
  match events_list stripeInstance (calls st) params connectedAccountId with
  | Some response =>
      let paymentRelatedEvents :=
        List.filter paymentRelated (Page.data response) in
      {| collected := collected st ++ paymentRelatedEvents;
         hasMore := Page.has_more response;
         startingAfter := last_id Event.id (Page.data response);
         calls := issued |}
  | None =>
      {| collected := collected st;
         hasMore := false;
         startingAfter := startingAfter st;
         calls := issued |}
  end.

Definition getEvents (stripeInstance : Upstream)
    (connectedAccountId : string) (startTimestamp endTimestamp : Z)
    (fuel : nat) (calls0 : list Call.t)
  : option (list Event.t * list Call.t) :=
  match while_hasMore fuel
          (getEvents_body stripeInstance connectedAccountId
             startTimestamp endTimestamp)
          (start_loop calls0) with
  | Some st => Some (collected st, calls st)
  | None => None
  end.

(** ** The multi-account orchestrator *)

(** What an awaited call gives back: a value, or an exception. *)
Inductive Result (A : Type) :=
| Returns (value : A)
| Throws (error : string).
Arguments Returns {A} _.
Arguments Throws {A} _.

Module Account.
Record t := mk {
  id : string;
  business_type : option string;
  country : option string;
  charges_enabled : bool;
  payouts_enabled : bool;
  email : option string;
  type : option string
}.
End Account.

Module AccountInfo.
Record t := mk {
  id : string;
  business_type : string;
  country : string;
  charges_enabled : bool;
  payouts_enabled : bool;
  email : string;
  type : string
}.
End AccountInfo.

(** [value || fallback] on a string that may be missing. *)
Definition or_default (value : option string) (fallback : string) : string :=
  match value with
  | Some s => if String.eqb s "" then fallback else s
  | None => fallback
  end.

Definition account_info (account : Account.t) : AccountInfo.t :=
  {| AccountInfo.id := Account.id account;
     AccountInfo.business_type :=
       or_default (Account.business_type account) "individual";
     AccountInfo.country := or_default (Account.country account) "US";
     AccountInfo.charges_enabled := Account.charges_enabled account;
     AccountInfo.payouts_enabled := Account.payouts_enabled account;
     AccountInfo.email := or_default (Account.email account) "";
     AccountInfo.type := or_default (Account.type account) "express" |}.

(** [{ ...tx, account_id: accountId }]. *)
Definition with_account_id (accountId : string) (tx : TransactionData)
  : TransactionData :=
  {| date := date tx;
     charges_count := charges_count tx;
     charges_amount := charges_amount tx;
     refunds_count := refunds_count tx;
     refunds_amount := refunds_amount tx;
     chargebacks_count := chargebacks_count tx;
     chargebacks_amount := chargebacks_amount tx;
     declines_count := declines_count tx;
     aprvl_pct := aprvl_pct tx;
     totals_count := totals_count tx;
     totals_amount := totals_amount tx;
     account_id := accountId |}.

(** [Array.prototype.sort(compare)], which is stable: [x] goes before the
    first element it does not have to follow. *)
Fixpoint sort_insert {A : Type} (compare : A -> A -> Z) (x : A)
    (sorted : list A) : list A :=
  match sorted with
  | [] => [x]
  | y :: rest =>
      if 0 <? compare x y then y :: sort_insert compare x rest
      else x :: y :: rest
  end.

Definition js_sort {A : Type} (compare : A -> A -> Z) (l : list A) : list A :=
  fold_right (sort_insert compare) [] l.

(** [new Date(b.date).getTime() - new Date(a.date).getTime()], in
    milliseconds. *)
Definition newest_first (a b : TransactionData) : Z :=
  date b * 86400000 - date a * 86400000.

Module MultiAccount.
Record t := mk {
  transactions : list TransactionData;
  accounts : list AccountInfo.t
}.
End MultiAccount.

Section Orchestrator.

(** The awaited collaborators of [getMultiAccountTransactions]: the
    Stripe constructor, [stripe.accounts.retrieve] and
    [this.getTransactions]. *)
Variable new_Stripe : string -> Result unit.
Variable accounts_retrieve : string -> Result Account.t.
Variable getTransactions :
  string -> string -> Z -> Z -> timezone -> Result (list TransactionData).

(** The body of [for (const accountId of accountIds)], with its
    [try]/[catch]. *)
Definition process_account (secretKey : string) (startDate endDate : Z)
    (tz : timezone)
    (st : list TransactionData * list AccountInfo.t) (accountId : string)
  : list TransactionData * list AccountInfo.t :=
  let '(allTransactions, accountInfos) := st in
  match accounts_retrieve accountId with
  | Throws _ => (allTransactions, accountInfos)
  | Returns account =>
      let accountInfos := accountInfos ++ [account_info account] in
      match getTransactions secretKey accountId startDate endDate tz with
      | Throws _ => (allTransactions, accountInfos)
      | Returns accountTransactions =>
          (allTransactions
             ++ map (with_account_id accountId) accountTransactions,
           accountInfos)
      end
  end.

Definition getMultiAccountTransactions (secretKey : string)
    (accountIds : list string) (startDate endDate : Z) (tz : timezone)
  : Result MultiAccount.t :=
  match new_Stripe secretKey with
  | Throws error => Throws error
  | Returns _ =>
      let '(allTransactions, accountInfos) :=
        fold_left (process_account secretKey startDate endDate tz)
                  accountIds ([], []) in
      Returns {| MultiAccount.transactions :=
                   js_sort newest_first allTransactions;
                 MultiAccount.accounts := accountInfos |}
  end.

End Orchestrator.

(** ** Customer IP of a detail row *)

Definition meta_field (metadata : option (gmap string string)) (key : string)
  : option string :=
  match metadata with
  | Some m => m !! key
  | None => None
  end.

(** [charge.payment_intent?.metadata]: an unexpanded reference is a
    string, which has no [metadata]. *)
Definition payment_intent_metadata (ref : PaymentIntentRef)
  : option (gmap string string) :=
  match ref with
  | PiObject metadata => metadata
  | PiId _ | PiNull => None
  end.






(** *** [isValidIP] and [extractCustomerIP] of the Sigma service *)

Definition chars (s : string) : list ascii := list_ascii_of_string s.

Definition is_digit (c : ascii) : bool :=
  let n := Z.of_nat (nat_of_ascii c) in (48 <=? n) && (n <=? 57).

Definition is_hex (c : ascii) : bool :=
  let n := Z.of_nat (nat_of_ascii c) in
  is_digit c || ((97 <=? n) && (n <=? 102)) || ((65 <=? n) && (n <=? 70)).

Definition digit_upto (hi : Z) (c : ascii) : bool :=
  let n := Z.of_nat (nat_of_ascii c) in (48 <=? n) && (n <=? 48 + hi).

(** [25[0-5]|2[0-4][0-9]|[01]?[0-9][0-9]?]. *)
Definition octet (s : string) : bool :=
  match chars s with
  | [a] => is_digit a
  | [a; b] => is_digit a && is_digit b
  | [a; b; c] =>
      (Ascii.eqb a "2"%char && Ascii.eqb b "5"%char && digit_upto 5 c)
      || (Ascii.eqb a "2"%char && digit_upto 4 b && is_digit c)
      || (digit_upto 1 a && is_digit b && is_digit c)
  | _ => false
  end.

(** [[0-9a-fA-F]{1,4}]. *)
Definition hextet (s : string) : bool :=
  let cs := chars s in
  (Z.of_nat (length cs) >=? 1) && (Z.of_nat (length cs) <=? 4)
  && forallb is_hex cs.

(** [s.split(sep)] for a one-character separator: never empty. *)
Fixpoint split_on (sep : ascii) (s : string) : list string :=
  match s with
  | EmptyString => [""]
  | String c s' =>
      if Ascii.eqb c sep then "" :: split_on sep s'
      else match split_on sep s' with
           | w :: ws => String c w :: ws
           | [] => [String c ""]
           end
  end.

Definition isValidIP (ip : string) : bool :=
  let ipRegex :=
    let parts := split_on "."%char ip in
    (Z.of_nat (length parts) =? 4) && forallb octet parts in
  let ipv6Regex :=
    let parts := split_on ":"%char ip in
    (Z.of_nat (length parts) =? 8) && forallb hextet parts in
  negb (String.eqb ip "") && (ipRegex || ipv6Regex).

Definition is_space (c : ascii) : bool :=
  let n := Z.of_nat (nat_of_ascii c) in
  ((9 <=? n) && (n <=? 13)) || (n =? 32).

Fixpoint trim_start (cs : list ascii) : list ascii :=
  match cs with
  | c :: rest => if is_space c then trim_start rest else cs
  | [] => []
  end.

(** [s.trim()], on the ASCII white space. *)
Definition js_trim (s : string) : string :=
  string_of_list_ascii (rev (trim_start (rev (trim_start (chars s))))).

Definition ipFields : list string :=
  [ "customer_ip"; "ip_address"; "client_ip"; "source_ip"; "user_ip";
    "visitor_ip"; "remote_ip"; "client_ip_address"; "ip"; "user_agent_ip" ].

(** One [for (const field of ipFields)] loop over a metadata object
    ([x.metadata || {}]). *)
Fixpoint first_valid_ip (metadata : option (gmap string string))
    (fields : list string) : option string :=
  match fields with
  | [] => None
  | field :: rest =>
      match meta_field metadata field with
      | Some v =>
          if negb (String.eqb v "") && isValidIP v then Some (js_trim v)
          else first_valid_ip metadata rest
      | None => first_valid_ip metadata rest
      end
  end.

Definition extractCustomerIP (charge : Charge.t) : string :=
  match first_valid_ip (Charge.metadata charge) ipFields with
  | Some ip => ip
  | None =>
      let fromPaymentIntent :=
        match Charge.payment_intent charge with
        | PiObject piMetadata => first_valid_ip piMetadata ipFields
        | PiId _ | PiNull => None
        end in
      match fromPaymentIntent with
      | Some ip => ip
      | None =>
          match Charge.source charge with
          | SrcObject sourceMetadata =>
              match first_valid_ip sourceMetadata ipFields with
              | Some ip => ip
              | None => ""
              end
          | SrcId _ | SrcNull => ""
          end
      end
  end.

(** ** Request validation of the report routes *)

(** What the handlers read from a request: the path parameter, the query
    string and the authenticated user. *)
Module Request.
Record t := mk {
  accountIds : string;
  start_date : option string;
  end_date : option string;
  timezone : option string;
  period : option string;
  isMaster : bool;
  stripeId : string;
  secretKey : string
}.
End Request.

(** Where a handler stops reading the request: a [400] reply, or the
    first call into the service, with the arguments it is made with. *)
Inductive Reply :=
| BadRequest (message : string)
| CallService (secretKey : string) (accountIdList : list string)
    (startDate endDate timezone : string).

(** A destructuring default, [{ key = fallback } = req.query]: only a
    missing key takes it. *)
Definition defaulted (value : option string) (fallback : string) : string :=
  match value with
  | Some s => s
  | None => fallback
  end.

(** [!value] on a query parameter. *)
Definition missing (value : option string) : bool :=
  match value with
  | Some s => String.eqb s ""
  | None => true
  end.

Section Routes.

(** moment, as the handlers use it: [moment_parse s] is the instant of
    [moment(s)] in milliseconds, [None] when [isValid()] is false;
    [days_ago n] is [moment().subtract(n, 'days').format('YYYY-MM-DD')]. *)
Variable moment_parse : string -> option Z.
Variable days_ago : Z -> string.

(** The [switch (period)] of both handlers. *)
Definition period_range (req : Request.t) : string + (string * string) :=
  let period := defaulted (Request.period req) "custom" in
  if String.eqb period "daily" then inr (days_ago 1, days_ago 0)
  else if String.eqb period "weekly" then inr (days_ago 7, days_ago 0)
  else if String.eqb period "monthly" then inr (days_ago 30, days_ago 0)
  else if String.eqb period "custom" then
    if missing (Request.start_date req) || missing (Request.end_date req)
    then inl "start_date and end_date are required for custom period"
    else inr (defaulted (Request.start_date req) "",
              defaulted (Request.end_date req) "")
  else inl "Invalid period. Use: daily, weekly, monthly, or custom".

(** The handler of [/multi/:accountIds], up to its call of
    [stripeService.getMultiAccountTransactions]. *)
Definition multi_route (req : Request.t) : Reply :=
  match period_range req with
  | inl message => BadRequest message
  | inr (startDate, endDate) =>
      match moment_parse startDate, moment_parse endDate with
      | Some startInstant, Some endInstant =>
          if endInstant <? startInstant
          then BadRequest "start_date cannot be after end_date"
          else
            let accountIdList :=
              map js_trim (split_on ","%char (Request.accountIds req)) in
            let accountIdList :=
              if Request.isMaster req then accountIdList
              else [Request.stripeId req] in
            if Z.of_nat (length accountIdList) =? 0
            then BadRequest "At least one account ID is required"
            else CallService (Request.secretKey req) accountIdList
                   startDate endDate
                   (defaulted (Request.timezone req) "UTC")
      | _, _ => BadRequest "Invalid date format. Use YYYY-MM-DD"
      end
  end.

(** The handler of [/detailed/:accountIds], up to its first call of
    [stripeService.getComplianceTransactions]: the same checks, written
    a second time in the source. *)
Definition detailed_route (req : Request.t) : Reply :=
  match period_range req with
  | inl message => BadRequest message
  | inr (startDate, endDate) =>
      match moment_parse startDate, moment_parse endDate with
      | Some startInstant, Some endInstant =>
          if endInstant <? startInstant
          then BadRequest "start_date cannot be after end_date"
          else
            let accountIdList :=
              map js_trim (split_on ","%char (Request.accountIds req)) in
            let accountIdList :=
              if Request.isMaster req then accountIdList
              else [Request.stripeId req] in
            if Z.of_nat (length accountIdList) =? 0
            then BadRequest "At least one account ID is required"
            else CallService (Request.secretKey req) accountIdList
                   startDate endDate
                   (defaulted (Request.timezone req) "UTC")
      | _, _ => BadRequest "Invalid date format. Use YYYY-MM-DD"
      end
  end.

End Routes.

(** * Vocabulary of the statements, and test doubles *)

(** ** The daily aggregator, one bucket at a time *)

(** The effect of [touch] on one entry. *)
Definition touch_entry (dateStr : Z) (f : TransactionData -> TransactionData)
    (entry : Z * TransactionData) : Z * TransactionData :=
  (fst entry, if fst entry =? dateStr then f (snd entry) else snd entry).

(** What a whole [forEach] pass does to one bucket. *)
Definition pass_on_day {R : Type} (day_of : R -> Z)
    (f : R -> TransactionData -> TransactionData)
    (records : list R) (dateStr : Z) (day : TransactionData)
  : TransactionData :=
  fold_left (fun day r => if dateStr =? day_of r then f r day else day)
            records day.

(** The bucket of day [d], computed on its own: the four passes restricted
    to [d], then the closing pass. *)
Definition day_bucket (tz : timezone)
    (charges : list Charge.t) (refunds : list Refund.t)
    (chargebacks : list Dispute.t) (declines : list Charge.t)
    (accountId : string) (d : Z) : TransactionData :=
  finish_day
    (pass_on_day (fun r => local_day tz (Charge.created r))
       (fun _ => on_decline) declines d
    (pass_on_day (fun r => local_day tz (Dispute.created r))
       (fun r => on_chargeback (Dispute.amount r)) chargebacks d
    (pass_on_day (fun r => local_day tz (Refund.created r))
       (fun r => on_refund (Refund.amount r)) refunds d
    (pass_on_day (fun r => local_day tz (Charge.created r))
       (fun r => on_charge (Charge.amount r)) charges d
       (empty_day d accountId))))).

(** The amounts falling on day [d], in minor units. *)
Definition minor_units_on {R : Type} (day_of : R -> Z) (amount : R -> Z)
    (d : Z) (records : list R) : Z :=
  fold_right (fun r total => if d =? day_of r then amount r + total else total)
             0 records.

(** The money fields of a bucket, before rounding, against the integer
    totals [c], [r], [k] of charges, refunds and chargebacks. *)
Definition money (day : TransactionData) (c r k : Z) : Prop :=
  charges_amount day == cents c /\
  refunds_amount day == cents r /\
  chargebacks_amount day == cents k /\
  totals_amount day == cents (c - r - k).

(** How many records fall on day [d]. *)
Definition records_on {R : Type} (day_of : R -> Z) (d : Z) (records : list R)
  : Z :=
  Z.of_nat (length (List.filter (fun r => d =? day_of r) records)).

Definition charge_day (tz : timezone) (r : Charge.t) : Z :=
  local_day tz (Charge.created r).
Definition refund_day (tz : timezone) (r : Refund.t) : Z :=
  local_day tz (Refund.created r).
Definition dispute_day (tz : timezone) (r : Dispute.t) : Z :=
  local_day tz (Dispute.created r).

(** A bucket as the initialisation loop leaves it, up to the closing
    pass, which rounds its zero amounts. *)
Definition zero_filled (day : TransactionData) : Prop :=
  charges_count day = 0 /\ charges_amount day == 0 /\
  refunds_count day = 0 /\ refunds_amount day == 0 /\
  chargebacks_count day = 0 /\ chargebacks_amount day == 0 /\
  declines_count day = 0 /\ aprvl_pct day == 100 /\
  totals_count day = 0 /\ totals_amount day == 0.

(** The four money fields of a bucket. *)
Definition money_fields (day : TransactionData) : Q * Q * Q * Q :=
  (charges_amount day, refunds_amount day, chargebacks_amount day,
   totals_amount day).

(** ** Mock upstreams *)

(** A charges endpoint that answers its [n]-th call with the [n]-th page
    of a script, whatever the parameters, and throws once the script is
    over; the other endpoints always throw. *)
Definition scripted_charges (script : list (Page.t Charge.t)) : Upstream :=
  {| charges_list := fun calls _ _ => nth_error script (length calls);
     refunds_list := fun _ _ _ => None;
     events_list := fun _ _ _ => None |}.

(** Endpoints that answer every call with an empty page and
    [has_more = true]. *)
Definition always_empty_more : Upstream :=
  {| charges_list := fun _ _ _ => Some (Page.mk [] true);
     refunds_list := fun _ _ _ => Some (Page.mk [] true);
     events_list := fun _ _ _ => Some (Page.mk [] true) |}.

(** The same script, played by the events endpoint. *)
Definition scripted_events (script : list (Page.t Event.t)) : Upstream :=
  {| charges_list := fun _ _ _ => None;
     refunds_list := fun _ _ _ => None;
     events_list := fun calls _ _ => nth_error script (length calls) |}.

(** [n] charges with distinct identifiers, numbered from [first]. *)
Definition mock_charges (first n : nat) : list Charge.t :=
  map (fun i =>
         Charge.mk (String "c" (String (ascii_of_nat (S i)) ""))
                   (Z.of_nat i) 100 None PiNull SrcNull)
      (seq first n).

Definition charges_call (connectedAccountId : string)
    (startTimestamp endTimestamp : Z) (cursor : option string) : Call.t :=
  Call.mk ChargesList
    {| ListParams.limit := 100;
       ListParams.created := Some (startTimestamp, endTimestamp);
       ListParams.starting_after := cursor |}
    connectedAccountId.

(** ** The collectors *)

(** The variables of a loop after an empty page that came with
    [has_more = true]: nothing collected, no cursor, one more call. *)
Definition after_empty_page {R : Type} (st : Loop R) (call : Call.t)
  : Loop R :=
  {| collected := collected st; hasMore := true; startingAfter := None;
     calls := calls st ++ [call] |}.

(** The prefixes [getEvents] keeps. *)
Definition payment_prefixes : list string :=
  ["charge."; "payment_intent."; "refund."; "dispute."; "balance."].

(** The events loop without its filter: what the upstream sent. *)
Definition unfiltered_events_body (stripeInstance : Upstream)
    (connectedAccountId : string) (startTimestamp endTimestamp : Z)
    (st : Loop Event.t) : Loop Event.t :=
  let params := page_params startTimestamp endTimestamp (startingAfter st) in
  let issued := calls st ++ [Call.mk EventsList params connectedAccountId] in
  match events_list stripeInstance (calls st) params connectedAccountId with
  | Some response =>
      {| collected := collected st ++ Page.data response;
         hasMore := Page.has_more response;
         startingAfter := last_id Event.id (Page.data response);
         calls := issued |}
  | None =>
      {| collected := collected st;
         hasMore := false;
         startingAfter := startingAfter st;
         calls := issued |}
  end.

(** The filtered loop follows the unfiltered one: same calls, same cursor,
    and the payment-related part of its records. *)
Definition follows (st raw : Loop Event.t) : Prop :=
  collected st = List.filter paymentRelated (collected raw) /\
  hasMore st = hasMore raw /\
  startingAfter st = startingAfter raw /\
  calls st = calls raw.

(** ** The orchestrator *)

Section OrchestratorVocabulary.

Variable accounts_retrieve : string -> Result Account.t.
Variable getTransactions :
  string -> string -> Z -> Z -> timezone -> Result (list TransactionData).
Variables (secretKey : string) (startDate endDate : Z) (tz : timezone).

(** Both awaited calls of the account returned. *)
Definition fetched (accountId : string) : Prop :=
  exists account rows,
    accounts_retrieve accountId = Returns account /\
    getTransactions secretKey accountId startDate endDate tz = Returns rows.

(** One of the awaited calls of the account threw. *)
Definition fetch_throws (accountId : string) : Prop :=
  (exists error, accounts_retrieve accountId = Throws error) \/
  (exists error,
     getTransactions secretKey accountId startDate endDate tz = Throws error).

(** The rows an account contributes: its buckets, tagged, when both
    calls returned, and nothing otherwise. *)
Definition account_rows (accountId : string) : list TransactionData :=
  match accounts_retrieve accountId,
        getTransactions secretKey accountId startDate endDate tz with
  | Returns _, Returns rows => map (with_account_id accountId) rows
  | _, _ => []
  end.

Definition account_infos (accountId : string) : list AccountInfo.t :=
  match accounts_retrieve accountId with
  | Returns account => [account_info account]
  | Throws _ => []
  end.

End OrchestratorVocabulary.

(** Three accounts of which the second cannot be retrieved, and a
    transaction fetch that finds no record. *)
Definition mock_retrieve (accountId : string) : Result Account.t :=
  if String.eqb accountId "acct_2" then Throws "No such account"
  else Returns (Account.mk accountId None (Some "US") true true None None).

Definition mock_getTransactions (apiKey connectedAccountId : string)
    (startDate endDate : Z) (tz : timezone) : Result (list TransactionData) :=
  Returns (groupTransactionsByDate [] [] [] [] startDate endDate tz
             connectedAccountId).

(** ** Detail rows and requests *)


(** A stand-in for moment on [YYYY-MM-DD] strings: the instant of the
    day's midnight, in milliseconds, and [None] for any other string. *)
Definition digit_value (c : ascii) : Z := Z.of_nat (nat_of_ascii c) - 48.

Definition days_from_civil (y m d : Z) : Z :=
  let y' := if m <=? 2 then y - 1 else y in
  let era := y' / 400 in
  let yoe := y' - era * 400 in
  let doy := (153 * (if 2 <? m then m - 3 else m + 9) + 2) / 5 + d - 1 in
  let doe := yoe * 365 + yoe / 4 - yoe / 100 + doy in
  era * 146097 + doe - 719468.

Definition mock_moment_parse (s : string) : option Z :=
  match chars s with
  | [y1; y2; y3; y4; dash1; m1; m2; dash2; d1; d2] =>
      let y := digit_value y1 * 1000 + digit_value y2 * 100
               + digit_value y3 * 10 + digit_value y4 in
      let m := digit_value m1 * 10 + digit_value m2 in
      let d := digit_value d1 * 10 + digit_value d2 in
      if forallb is_digit [y1; y2; y3; y4; m1; m2; d1; d2]
         && Ascii.eqb dash1 "-" && Ascii.eqb dash2 "-"
         && (1 <=? m) && (m <=? 12) && (1 <=? d) && (d <=? 31)
      then Some (days_from_civil y m d * 86400000)
      else None
  | _ => None
  end.

(** A stand-in for the clock, on 2024-03-31. *)
Definition mock_days_ago (n : Z) : string :=
  if n =? 0 then "2024-03-31"
  else if n =? 1 then "2024-03-30"
  else if n =? 7 then "2024-03-24"
  else "2024-03-01".

(** * More of the code *)

(** ** Pagination of the report routes *)

(** A JavaScript number as it occurs in the pagination block: an integer,
    [Infinity] or [NaN].  Integers are exact and the sign of a zero is not
    kept. *)
Inductive JsNumber :=
| Num (z : Z)
| PlusInfinity
| NotANumber.









Module Pagination.
Record t := mk {
  currentPage : option Z;
  itemsPerPage : option Z;
  totalItems : Z;
  totalPages : JsNumber;
  hasPrevPage : bool;
  hasNextPage : bool
}.
End Pagination.


(** ** Vocabulary of the further statements *)

Definition sumZ (l : list Z) : Z := fold_right Z.add 0 l.

(** How many records fall on a day of the range [startDate..endDate]. *)
Definition records_in_range {R : Type} (day_of : R -> Z)
    (startDate endDate : Z) (records : list R) : Z :=
  Z.of_nat (length (List.filter
    (fun r => (startDate <=? day_of r) && (day_of r <=? endDate)) records)).

(** An upstream whose charge listing does not depend on the calls made
    before. *)
Definition history_free (up : Upstream) : Prop :=
  forall calls calls' params account,
    charges_list up calls params account
    = charges_list up calls' params account.

(** Two loops that differ by their call log only. *)
Definition same_variables {R : Type} (st st' : Loop R) : Prop :=
  collected st = collected st' /\
  hasMore st = hasMore st' /\
  startingAfter st = startingAfter st'.

(** The pages of a script that a collector gets to see: up to the first
    one that says [has_more = false], that one included. *)
Fixpoint served {R : Type} (script : list (Page.t R)) : list (Page.t R) :=
  match script with
  | [] => []
  | page :: rest =>
      if Page.has_more page then page :: served rest else [page]
  end.

(** The calls it takes: one per page served, and one more, which throws,
    when the script ends while more was promised. *)
Definition pagination_calls {R : Type} (script : list (Page.t R)) : nat :=
  if forallb Page.has_more script then S (length script)
  else length (served script).

(** A call of the charges pagination loop for an account and a window. *)
Definition page_call (connectedAccountId : string)
    (startTimestamp endTimestamp : Z) (call : Call.t) : Prop :=
  Call.endpoint call = ChargesList /\
  Call.stripeAccount call = connectedAccountId /\
  ListParams.limit (Call.params call) = 100 /\
  ListParams.created (Call.params call)
  = Some (startTimestamp, endTimestamp).

(** Rows in newest-first order. *)
Fixpoint newest_first_sorted (rows : list TransactionData) : Prop :=
  match rows with
  | [] => True
  | row :: rest =>
      Forall (fun later => date later <= date row) rest /\
      newest_first_sorted rest
  end.

(** The rows of one day, in the order they have. *)
Definition rows_of_day (d : Z) (rows : list TransactionData)
  : list TransactionData :=
  List.filter (fun row => date row =? d) rows.

(** [charge.source.metadata] when the source is an object. *)
Definition source_metadata (ref : SourceRef) : option (gmap string string) :=
  match ref with
  | SrcObject metadata => metadata
  | SrcId _ | SrcNull => None
  end.

(** The value of a string of decimal digits. *)
Definition digits_value (cs : list ascii) : Z :=
  fold_left (fun acc c => acc * 10 + digit_value c) cs 0.

(** One to three decimal digits that write a number up to 255. *)
Definition decimal_octet (s : string) : Prop :=
  (1 <= length (chars s) <= 3)%nat /\
  forallb is_digit (chars s) = true /\
  digits_value (chars s) <= 255.

(** A charges endpoint that pages by cursor, whatever was called before:
    two charges first, and a last one after any cursor. *)
Definition paged_by_cursor : Upstream :=
  {| charges_list := fun _ params _ =>
       match ListParams.starting_after params with
       | None =>
           Some (Page.mk [Charge.mk "ch_1" 100 500 None PiNull SrcNull;
                          Charge.mk "ch_2" 200 700 None PiNull SrcNull] true)
       | Some _ =>
           Some (Page.mk [Charge.mk "ch_3" 300 900 None PiNull SrcNull] false)
       end;
     refunds_list := fun _ _ _ => None;
     events_list := fun _ _ _ => None |}.

Definition sumQ (l : list Q) : Q := fold_right Qplus 0%Q l.

(** The amounts of the records that fall on a day of the range, in minor
    units. *)
Definition minor_units_in_range {R : Type} (day_of amount : R -> Z)
    (startDate endDate : Z) (records : list R) : Z :=
  fold_right (fun r total =>
    if (startDate <=? day_of r) && (day_of r <=? endDate)
    then amount r + total else total) 0 records.
(** * Properties *)

(** ** Rounding *)

Lemma Math_round_half (a : Z) : Math_round (inject_Z a) = a.
Proof.
  unfold Math_round, Qfloor, Qplus, inject_Z; simpl.
  rewrite Z.mul_1_r.
  replace (a * 2 + 1) with (1 + a * 2) by lia.
  rewrite Z.div_add by lia. reflexivity.
Qed.

(** Rounding does not see how a rational is written. *)
Lemma Math_round_compat : Proper (Qeq ==> eq) Math_round.
Proof.
  intros x y Hxy. unfold Math_round. apply Qfloor_comp. rewrite Hxy. reflexivity.
Qed.
#[local] Existing Instance Math_round_compat.

Lemma round2_compat : Proper (Qeq ==> Qeq) round2.
Proof.
  intros x y Hxy. unfold round2. rewrite Hxy. reflexivity.
Qed.
#[local] Existing Instance round2_compat.

Lemma round2_cents (a : Z) : round2 (cents a) == cents a.
Proof.
  unfold round2, cents.
  assert (E : inject_Z a / 100 * 100 == inject_Z a) by (field).
  rewrite E, Math_round_half. reflexivity.
Qed.

Lemma cents_add (a b : Z) : cents (a + b) == cents a + cents b.
Proof. unfold cents. rewrite inject_Z_plus. field. Qed.

Lemma cents_sub (a b : Z) : cents (a - b) == cents a - cents b.
Proof.
  unfold cents, Z.sub. rewrite inject_Z_plus, inject_Z_opp. field.
Qed.

(** ** The day dictionary *)

Lemma touch_entry_absent dateStr f (o : DailyData) :
  ~ In dateStr (obj_keys o) -> map (touch_entry dateStr f) o = o.
Proof.
  induction o as [|[k v] o IH]; simpl; intros Hk; [reflexivity|].
  unfold touch_entry at 1; simpl.
  destruct (Z.eqb_spec k dateStr) as [->|Hne]; [tauto|].
  rewrite IH by tauto. reflexivity.
Qed.

Lemma obj_set_absent dateStr v (o : DailyData) :
  ~ In dateStr (obj_keys o) -> obj_set dateStr v o = o ++ [(dateStr, v)].
Proof.
  induction o as [|[k w] o IH]; simpl; intros Hk; [reflexivity|].
  destruct (Z.eqb_spec k dateStr) as [->|Hne]; [tauto|].
  rewrite IH by tauto. reflexivity.
Qed.

Lemma touch_as_map dateStr f (o : DailyData) :
  List.NoDup (obj_keys o) -> touch dateStr f o = map (touch_entry dateStr f) o.
Proof.
  unfold touch.
  induction o as [|[k v] o IH]; simpl; intros Hnd; [reflexivity|].
  inversion Hnd as [|? ? Hk Hnd']; subst.
  unfold touch_entry at 1; simpl.
  destruct (Z.eqb_spec k dateStr) as [->|Hne].
  - simpl. rewrite touch_entry_absent by assumption. reflexivity.
  - specialize (IH Hnd').
    destruct (obj_get dateStr o) as [day|]; simpl.
    + destruct (Z.eqb_spec k dateStr); [contradiction|]. rewrite IH. reflexivity.
    + rewrite <- IH. reflexivity.
Qed.

Lemma touch_entry_keys dateStr f (o : DailyData) :
  obj_keys (map (touch_entry dateStr f) o) = obj_keys o.
Proof.
  unfold obj_keys. rewrite map_map. reflexivity.
Qed.

Lemma pass_as_map {R : Type} (day_of : R -> Z)
    (f : R -> TransactionData -> TransactionData)
    (records : list R) (o : DailyData) :
  List.NoDup (obj_keys o) ->
  fold_left (fun o r => touch (day_of r) (f r) o) records o
  = map (fun entry =>
           (fst entry, pass_on_day day_of f records (fst entry) (snd entry))) o.
Proof.
  revert o.
  induction records as [|r records IH]; intros o Hnd; simpl.
  - rewrite <- (map_id o) at 1. apply map_ext. intros [k v]. reflexivity.
  - rewrite IH by (rewrite touch_as_map, touch_entry_keys; assumption).
    rewrite touch_as_map by assumption.
    rewrite map_map. apply map_ext. intros [k v]. reflexivity.
Qed.

Lemma pass_keys {R : Type} (day_of : R -> Z)
    (f : R -> TransactionData -> TransactionData)
    (records : list R) (o : DailyData) :
  obj_keys
    (map (fun entry =>
            (fst entry, pass_on_day day_of f records (fst entry) (snd entry))) o)
  = obj_keys o.
Proof. unfold obj_keys. rewrite map_map. reflexivity. Qed.

(** The initialisation loop lays out the days of the range, in order. *)
Lemma init_days_spec currentDate endMoment accountId (o : DailyData) :
  (forall k, In k (obj_keys o) -> k < currentDate) ->
  init_days currentDate endMoment accountId o
  = o ++ map (fun d => (d, empty_day d accountId))
             (seqZ currentDate (endMoment - currentDate + 1)).
Proof.
  funelim (init_days currentDate endMoment accountId o); intros Hlt.
  - match goal with
    | IH : _ -> init_days _ _ _ _ = _ ++ _ |- _ => rewrite IH
    end.
    + rewrite obj_set_absent.
      * rewrite <- app_assoc. f_equal. simpl.
        replace (endMoment - currentDate + 1)
          with (Z.succ (endMoment - (currentDate + 1) + 1)) by lia.
        rewrite (seqZ_cons currentDate) by lia. simpl.
        replace (Z.succ currentDate) with (currentDate + 1) by lia.
        replace (Z.pred (Z.succ (endMoment - (currentDate + 1) + 1)))
          with (endMoment - (currentDate + 1) + 1) by lia.
        reflexivity.
      * intros Hin. apply Hlt in Hin. lia.
    + intros k Hin. rewrite obj_set_absent in Hin.
      * unfold obj_keys in Hin. rewrite map_app in Hin.
        apply in_app_or in Hin. destruct Hin as [Hin|Hin].
        -- apply Hlt in Hin. lia.
        -- simpl in Hin. destruct Hin as [<-|[]]. lia.
      * intros Hin'. apply Hlt in Hin'. lia.
  - unfold seqZ. replace (Z.to_nat (endMoment - currentDate + 1)) with O by lia.
    simpl. rewrite app_nil_r. reflexivity.
Qed.

(** ** One bucket at a time *)

Lemma group_by_day charges refunds chargebacks declines
    startDate endDate tz accountId :
  groupTransactionsByDate charges refunds chargebacks declines
    startDate endDate tz accountId
  = map (day_bucket tz charges refunds chargebacks declines accountId)
        (seqZ startDate (endDate - startDate + 1)).
Proof.
  unfold groupTransactionsByDate, process_charges, process_refunds,
    process_chargebacks, process_declines.
  rewrite init_days_spec by (simpl; tauto). simpl app.
  set (days := seqZ startDate (endDate - startDate + 1)).
  assert (Hnd : List.NoDup
            (obj_keys (map (fun d => (d, empty_day d accountId)) days))).
  { unfold obj_keys. rewrite map_map. simpl. rewrite map_id.
    apply NoDup_ListNoDup, NoDup_seqZ. }
  rewrite (pass_as_map (fun r => local_day tz (Charge.created r))
             (fun r => on_charge (Charge.amount r))) by exact Hnd.
  rewrite (pass_as_map (fun r => local_day tz (Refund.created r))
             (fun r => on_refund (Refund.amount r)))
    by (rewrite pass_keys; exact Hnd).
  rewrite (pass_as_map (fun r => local_day tz (Dispute.created r))
             (fun r => on_chargeback (Dispute.amount r)))
    by (rewrite !pass_keys; exact Hnd).
  rewrite (pass_as_map (fun r => local_day tz (Charge.created r))
             (fun _ => on_decline))
    by (rewrite !pass_keys; exact Hnd).
  unfold obj_values. rewrite !map_map. apply map_ext. intros d. reflexivity.
Qed.

Lemma pass_on_day_date {R : Type} (day_of : R -> Z)
    (f : R -> TransactionData -> TransactionData) records d day :
  (forall r x, date (f r x) = date x) ->
  date (pass_on_day day_of f records d day) = date day.
Proof.
  intros Hf. revert day. unfold pass_on_day.
  induction records as [|r records IH]; intros day; simpl; [reflexivity|].
  rewrite IH. destruct (d =? day_of r); [apply Hf | reflexivity].
Qed.

Lemma day_bucket_date tz charges refunds chargebacks declines accountId d :
  date (day_bucket tz charges refunds chargebacks declines accountId d) = d.
Proof.
  unfold day_bucket. simpl.
  rewrite !pass_on_day_date by reflexivity. reflexivity.
Qed.

Lemma pass_on_day_idle {R : Type} (day_of : R -> Z)
    (f : R -> TransactionData -> TransactionData) records d day :
  (forall r, In r records -> day_of r <> d) ->
  pass_on_day day_of f records d day = day.
Proof.
  revert day. unfold pass_on_day.
  induction records as [|r records IH]; intros day Hidle; simpl; [reflexivity|].
  destruct (Z.eqb_spec d (day_of r)) as [E|_].
  - exfalso. apply (Hidle r); [left; reflexivity | symmetry; exact E].
  - apply IH. intros r' Hr'. apply Hidle. right. exact Hr'.
Qed.

Lemma money_charge a day c r k :
  money day c r k -> money (on_charge a day) (c + a) r k.
Proof.
  intros (Hc & Hr & Hk & Ht). repeat split; simpl; try assumption.
  - rewrite Hc, cents_add. reflexivity.
  - rewrite Ht. replace (c + a - r - k) with ((c - r - k) + a) by lia.
    rewrite (cents_add (c - r - k) a). reflexivity.
Qed.

Lemma money_refund a day c r k :
  money day c r k -> money (on_refund a day) c (r + a) k.
Proof.
  intros (Hc & Hr & Hk & Ht). repeat split; simpl; try assumption.
  - rewrite Hr, cents_add. reflexivity.
  - rewrite Ht. replace (c - (r + a) - k) with ((c - r - k) - a) by lia.
    rewrite (cents_sub (c - r - k) a). reflexivity.
Qed.

Lemma money_chargeback a day c r k :
  money day c r k -> money (on_chargeback a day) c r (k + a).
Proof.
  intros (Hc & Hr & Hk & Ht). repeat split; simpl; try assumption.
  - rewrite Hk, cents_add. reflexivity.
  - rewrite Ht. replace (c - r - (k + a)) with ((c - r - k) - a) by lia.
    rewrite (cents_sub (c - r - k) a). reflexivity.
Qed.

Lemma money_pass_charges {R : Type} (day_of amount : R -> Z) records d :
  forall day c r k,
  money day c r k ->
  money (pass_on_day day_of (fun x => on_charge (amount x)) records d day)
        (c + minor_units_on day_of amount d records) r k.
Proof.
  unfold pass_on_day.
  induction records as [|x records IH]; intros day c r k H; simpl.
  - rewrite Z.add_0_r. exact H.
  - destruct (d =? day_of x).
    + replace (c + (amount x + minor_units_on day_of amount d records))
        with ((c + amount x) + minor_units_on day_of amount d records) by lia.
      apply IH, money_charge, H.
    + apply IH, H.
Qed.

Lemma money_pass_refunds {R : Type} (day_of amount : R -> Z) records d :
  forall day c r k,
  money day c r k ->
  money (pass_on_day day_of (fun x => on_refund (amount x)) records d day)
        c (r + minor_units_on day_of amount d records) k.
Proof.
  unfold pass_on_day.
  induction records as [|x records IH]; intros day c r k H; simpl.
  - rewrite Z.add_0_r. exact H.
  - destruct (d =? day_of x).
    + replace (r + (amount x + minor_units_on day_of amount d records))
        with ((r + amount x) + minor_units_on day_of amount d records) by lia.
      apply IH, money_refund, H.
    + apply IH, H.
Qed.

Lemma money_pass_chargebacks {R : Type} (day_of amount : R -> Z) records d :
  forall day c r k,
  money day c r k ->
  money (pass_on_day day_of (fun x => on_chargeback (amount x)) records d day)
        c r (k + minor_units_on day_of amount d records).
Proof.
  unfold pass_on_day.
  induction records as [|x records IH]; intros day c r k H; simpl.
  - rewrite Z.add_0_r. exact H.
  - destruct (d =? day_of x).
    + replace (k + (amount x + minor_units_on day_of amount d records))
        with ((k + amount x) + minor_units_on day_of amount d records) by lia.
      apply IH, money_chargeback, H.
    + apply IH, H.
Qed.

(** A pass of declines leaves every money field as it is. *)
Lemma pass_declines_money {R : Type} (day_of : R -> Z) records d day :
  let day' := pass_on_day day_of (fun _ => on_decline) records d day in
  charges_amount day' = charges_amount day /\
  refunds_amount day' = refunds_amount day /\
  chargebacks_amount day' = chargebacks_amount day /\
  totals_amount day' = totals_amount day.
Proof.
  revert day. unfold pass_on_day.
  induction records as [|x records IH]; intros day; simpl; [tauto|].
  destruct (IH (if d =? day_of x then on_decline day else day))
    as (Hc & Hr & Hk & Ht).
  rewrite Hc, Hr, Hk, Ht. destruct (d =? day_of x); simpl; tauto.
Qed.

Lemma pass_on_day_keeps {R B : Type} (day_of : R -> Z)
    (f : R -> TransactionData -> TransactionData)
    (g : TransactionData -> B) records d day :
  (forall r x, g (f r x) = g x) ->
  g (pass_on_day day_of f records d day) = g day.
Proof.
  intros Hf. revert day. unfold pass_on_day.
  induction records as [|r records IH]; intros day; simpl; [reflexivity|].
  rewrite IH. destruct (d =? day_of r); [apply Hf | reflexivity].
Qed.

Lemma pass_on_day_counts {R : Type} (day_of : R -> Z)
    (f : R -> TransactionData -> TransactionData)
    (g : TransactionData -> Z) records d day :
  (forall r x, g (f r x) = g x + 1) ->
  g (pass_on_day day_of f records d day) = g day + records_on day_of d records.
Proof.
  intros Hf. revert day. unfold pass_on_day, records_on.
  induction records as [|r records IH]; intros day; simpl; [lia|].
  rewrite IH. destruct (d =? day_of r); simpl; [rewrite Hf|]. all: lia.
Qed.

Lemma day_bucket_counts tz charges refunds chargebacks declines accountId d :
  let day := day_bucket tz charges refunds chargebacks declines accountId d in
  charges_count day = records_on (charge_day tz) d charges /\
  refunds_count day = records_on (refund_day tz) d refunds /\
  chargebacks_count day = records_on (dispute_day tz) d chargebacks /\
  declines_count day = records_on (charge_day tz) d declines /\
  totals_count day
  = records_on (charge_day tz) d charges
    + records_on (refund_day tz) d refunds
    + records_on (dispute_day tz) d chargebacks
    + records_on (charge_day tz) d declines.
Proof.
  unfold day_bucket, charge_day, refund_day, dispute_day. simpl.
  repeat split.
  - rewrite !(pass_on_day_keeps _ _ charges_count) by reflexivity.
    rewrite (pass_on_day_counts _ _ charges_count) by reflexivity.
    reflexivity.
  - rewrite !(pass_on_day_keeps _ _ refunds_count) by reflexivity.
    rewrite (pass_on_day_counts _ _ refunds_count) by reflexivity.
    rewrite !(pass_on_day_keeps _ _ refunds_count) by reflexivity.
    reflexivity.
  - rewrite !(pass_on_day_keeps _ _ chargebacks_count) by reflexivity.
    rewrite (pass_on_day_counts _ _ chargebacks_count) by reflexivity.
    rewrite !(pass_on_day_keeps _ _ chargebacks_count) by reflexivity.
    reflexivity.
  - rewrite (pass_on_day_counts _ _ declines_count) by reflexivity.
    rewrite !(pass_on_day_keeps _ _ declines_count) by reflexivity.
    reflexivity.
  - rewrite !(pass_on_day_counts _ _ totals_count) by reflexivity.
    simpl. lia.
Qed.

Lemma day_bucket_money tz charges refunds chargebacks declines accountId d :
  let day := day_bucket tz charges refunds chargebacks declines accountId d in
  let c := minor_units_on (charge_day tz) Charge.amount d charges in
  let r := minor_units_on (refund_day tz) Refund.amount d refunds in
  let k := minor_units_on (dispute_day tz) Dispute.amount d chargebacks in
  charges_amount day == cents c /\
  refunds_amount day == cents r /\
  chargebacks_amount day == cents k /\
  totals_amount day == cents (c - r - k).
Proof.
  intros day c r k. unfold day, day_bucket. simpl.
  destruct (pass_declines_money (fun x => local_day tz (Charge.created x))
              declines d
              (pass_on_day (fun x => local_day tz (Dispute.created x))
                 (fun x => on_chargeback (Dispute.amount x)) chargebacks d
              (pass_on_day (fun x => local_day tz (Refund.created x))
                 (fun x => on_refund (Refund.amount x)) refunds d
              (pass_on_day (fun x => local_day tz (Charge.created x))
                 (fun x => on_charge (Charge.amount x)) charges d
                 (empty_day d accountId)))))
    as (Ec & Er & Ek & Et).
  rewrite Ec, Er, Ek, Et.
  assert (H0 : money (empty_day d accountId) 0 0 0)
    by (repeat split; reflexivity).
  apply (money_pass_charges (charge_day tz) Charge.amount charges d) in H0.
  apply (money_pass_refunds (refund_day tz) Refund.amount refunds d) in H0.
  apply (money_pass_chargebacks (dispute_day tz) Dispute.amount chargebacks d)
    in H0.
  destruct H0 as (Hc & Hr & Hk & Ht). simpl in Hc, Hr, Hk, Ht.
  fold c r k in Hc, Hr, Hk, Ht.
  unfold charge_day, refund_day, dispute_day in Hc, Hr, Hk, Ht.
  rewrite Hc, Hr, Hk, Ht, !round2_cents. repeat split; reflexivity.
Qed.

(** ** The daily aggregator *)

(** C1. For [startDate <= endDate], any time zone and any input lists,
    [groupTransactionsByDate] returns [endDate - startDate + 1] buckets,
    one per day of the inclusive range and in calendar order, each tagged
    with the account; a bucket on whose day no record falls is zero-filled. *)
Theorem bucket_completeness charges refunds chargebacks declines
    startDate endDate tz accountId :
  startDate <= endDate ->
  let days := groupTransactionsByDate charges refunds chargebacks declines
                startDate endDate tz accountId in
  Z.of_nat (length days) = endDate - startDate + 1 /\
  map date days = seqZ startDate (endDate - startDate + 1) /\
  Forall (fun day => account_id day = accountId) days /\
  Forall (fun day =>
    Forall (fun r => charge_day tz r <> date day) charges ->
    Forall (fun r => refund_day tz r <> date day) refunds ->
    Forall (fun r => dispute_day tz r <> date day) chargebacks ->
    Forall (fun r => charge_day tz r <> date day) declines ->
    zero_filled day) days.
Proof.
  intros Hle days. unfold days. rewrite group_by_day.
  repeat split.
  - rewrite length_map, length_seqZ. lia.
  - rewrite map_map. erewrite map_ext; [apply map_id|].
    intros d. apply day_bucket_date.
  - apply List.Forall_forall. intros day Hin.
    apply in_map_iff in Hin as (d & <- & _).
    unfold day_bucket. simpl.
    rewrite !(pass_on_day_keeps _ _ account_id) by reflexivity. reflexivity.
  - apply List.Forall_forall. intros day Hin.
    apply in_map_iff in Hin as (d & <- & _).
    rewrite day_bucket_date. intros Hc Hr Hk Hd.
    rewrite List.Forall_forall in Hc, Hr, Hk, Hd.
    unfold day_bucket.
    rewrite !pass_on_day_idle by assumption.
    repeat split; reflexivity.
Qed.

Lemma bucket_completeness_witness :
  0 <= 2 /\
  Z.of_nat (length (groupTransactionsByDate
                      [Charge.mk "ch_1" 90000 12345 None PiNull SrcNull]
                      [] [] [] 0 2 UTC "acct_1")) = 3.
Proof.
  split; [lia|].
  apply (bucket_completeness
           [Charge.mk "ch_1" 90000 12345 None PiNull SrcNull]
           [] [] [] 0 2 UTC "acct_1").
  lia.
Defined.

Lemma finish_day_money_fields x y :
  charges_amount x = charges_amount y /\
  refunds_amount x = refunds_amount y /\
  chargebacks_amount x = chargebacks_amount y /\
  totals_amount x = totals_amount y ->
  money_fields (finish_day x) = money_fields (finish_day y).
Proof.
  intros (Hc & Hr & Hk & Ht). unfold money_fields, finish_day. simpl.
  rewrite Hc, Hr, Hk, Ht. reflexivity.
Qed.

(** C2. In every bucket the net total is [round2 (C - R - D)] for its
    charges amount [C], refunds amount [R] and chargebacks amount [D];
    [C], [R] and [D] are the day's charges, refunds and chargebacks in
    major units and the net total is their signed sum, and the declines
    change no money field. *)
Theorem signed_total charges refunds chargebacks declines
    startDate endDate tz accountId :
  let days := groupTransactionsByDate charges refunds chargebacks declines
                startDate endDate tz accountId in
  Forall (fun day =>
    let c := minor_units_on (charge_day tz) Charge.amount (date day) charges in
    let r := minor_units_on (refund_day tz) Refund.amount (date day) refunds in
    let k := minor_units_on (dispute_day tz) Dispute.amount (date day)
               chargebacks in
    totals_amount day
    == round2 (charges_amount day - refunds_amount day
               - chargebacks_amount day) /\
    charges_amount day == cents c /\
    refunds_amount day == cents r /\
    chargebacks_amount day == cents k /\
    totals_amount day == cents c - cents r - cents k) days /\
  map money_fields days
  = map money_fields
      (groupTransactionsByDate charges refunds chargebacks []
         startDate endDate tz accountId).
Proof.
  intros days. unfold days. rewrite !group_by_day. split.
  - apply List.Forall_forall. intros day Hin.
    apply in_map_iff in Hin as (d & <- & _).
    rewrite day_bucket_date.
    destruct (day_bucket_money tz charges refunds chargebacks declines
                accountId d) as (Hc & Hr & Hk & Ht).
    cbv zeta in *.
    rewrite Hc, Hr, Hk, Ht.
    rewrite <- !cents_sub, round2_cents.
    repeat split; reflexivity.
  - rewrite !map_map. apply map_ext. intros d.
    unfold day_bucket. apply finish_day_money_fields.
    destruct (pass_declines_money (fun x => local_day tz (Charge.created x))
                declines d
                (pass_on_day (fun x => local_day tz (Dispute.created x))
                   (fun x => on_chargeback (Dispute.amount x)) chargebacks d
                (pass_on_day (fun x => local_day tz (Refund.created x))
                   (fun x => on_refund (Refund.amount x)) refunds d
                (pass_on_day (fun x => local_day tz (Charge.created x))
                   (fun x => on_charge (Charge.amount x)) charges d
                   (empty_day d accountId)))))
      as (Ec & Er & Ek & Et).
    repeat split; assumption.
Qed.



(** ** The paginated collectors *)

Lemma last_id_some {R : Type} (id : R -> string) (data : list R) (r : R) :
  last data = Some r -> id r <> "" -> last_id id data = Some (id r).
Proof.
  intros Hlast Hid. unfold last_id. rewrite Hlast.
  destruct (String.eqb_spec (id r) ""); [contradiction | reflexivity].
Qed.

Lemma page_params_cursor s e (cursor : string) :
  cursor <> "" ->
  page_params s e (Some cursor)
  = {| ListParams.limit := 100; ListParams.created := Some (s, e);
       ListParams.starting_after := Some cursor |}.
Proof.
  intros Hc. unfold page_params.
  destruct (String.eqb_spec cursor ""); [contradiction | reflexivity].
Qed.

Lemma while_hasMore_fuel {R : Type} (body : Loop R -> Loop R) fuel fuel' st out :
  (fuel <= fuel')%nat ->
  while_hasMore fuel body st = Some out ->
  while_hasMore fuel' body st = Some out.
Proof.
  revert fuel' st. induction fuel as [|fuel IH]; intros fuel' st Hle H.
  - simpl in H. destruct fuel'; simpl; destruct (hasMore st); congruence.
  - destruct fuel' as [|fuel']; [lia|]. simpl in *.
    destruct (hasMore st); [|exact H]. apply IH; [lia | exact H].
Qed.

(** C6. Against a mock upstream that answers with two full pages of 100
    records and [has_more = true], then a page of 37 records and
    [has_more = false], [getCharges] issues exactly three calls, each for
    100 records of the window, the second and third with the identifier of
    the last record of the page before as cursor, and returns the 237
    records in upstream order. *)
Theorem pagination_exhaustion (p1 p2 p3 : list Charge.t) (r1 r2 : Charge.t)
    (connectedAccountId : string) (startTimestamp endTimestamp : Z)
    (fuel : nat) :
  length p1 = 100%nat -> length p2 = 100%nat -> length p3 = 37%nat ->
  last p1 = Some r1 -> Charge.id r1 <> "" ->
  last p2 = Some r2 -> Charge.id r2 <> "" ->
  (3 <= fuel)%nat ->
  getCharges
    (scripted_charges [Page.mk p1 true; Page.mk p2 true; Page.mk p3 false])
    connectedAccountId startTimestamp endTimestamp fuel []
  = Some (p1 ++ p2 ++ p3,
          [ charges_call connectedAccountId startTimestamp endTimestamp None;
            charges_call connectedAccountId startTimestamp endTimestamp
              (Some (Charge.id r1));
            charges_call connectedAccountId startTimestamp endTimestamp
              (Some (Charge.id r2)) ])
  /\ length (p1 ++ p2 ++ p3) = 237%nat.
Proof.
  intros L1 L2 L3 H1 I1 H2 I2 Hfuel.
  split; [|rewrite !length_app; lia].
  unfold getCharges.
  rewrite (while_hasMore_fuel _ 3 fuel (start_loop [])
             {| collected := p1 ++ p2 ++ p3;
                hasMore := false;
                startingAfter := last_id Charge.id p3;
                calls :=
                  [ charges_call connectedAccountId startTimestamp
                      endTimestamp None;
                    charges_call connectedAccountId startTimestamp
                      endTimestamp (Some (Charge.id r1));
                    charges_call connectedAccountId startTimestamp
                      endTimestamp (Some (Charge.id r2)) ] |} Hfuel).
  - simpl collected. simpl calls.
    rewrite !length_app, L1, L2, L3. reflexivity.
  - set (up := scripted_charges
                  [Page.mk p1 true; Page.mk p2 true; Page.mk p3 false]).
    set (call1 := charges_call connectedAccountId startTimestamp
                    endTimestamp None).
    set (call2 := charges_call connectedAccountId startTimestamp
                    endTimestamp (Some (Charge.id r1))).
    set (call3 := charges_call connectedAccountId startTimestamp
                    endTimestamp (Some (Charge.id r2))).
    assert (E1 : getCharges_body up connectedAccountId startTimestamp
                   endTimestamp (start_loop [])
                 = mkLoop p1 true (Some (Charge.id r1)) [call1]).
    { unfold getCharges_body. cbn.
      rewrite (last_id_some _ _ _ H1 I1). reflexivity. }
    assert (E2 : getCharges_body up connectedAccountId startTimestamp
                   endTimestamp
                   (mkLoop p1 true (Some (Charge.id r1)) [call1])
                 = mkLoop (p1 ++ p2) true (Some (Charge.id r2))
                     [call1; call2]).
    { unfold getCharges_body. cbn.
      rewrite (last_id_some _ _ _ H2 I2), (page_params_cursor _ _ _ I1).
      reflexivity. }
    assert (E3 : getCharges_body up connectedAccountId startTimestamp
                   endTimestamp
                   (mkLoop (p1 ++ p2) true (Some (Charge.id r2))
                      [call1; call2])
                 = mkLoop (p1 ++ p2 ++ p3) false (last_id Charge.id p3)
                     [call1; call2; call3]).
    { unfold getCharges_body. cbn.
      rewrite (page_params_cursor _ _ _ I2), <- app_assoc. reflexivity. }
    change (while_hasMore 3
              (getCharges_body up connectedAccountId startTimestamp
                 endTimestamp) (start_loop []))
      with (while_hasMore 2
              (getCharges_body up connectedAccountId startTimestamp
                 endTimestamp)
              (getCharges_body up connectedAccountId startTimestamp
                 endTimestamp (start_loop []))).
    rewrite E1. cbn [while_hasMore hasMore].
    rewrite E2. cbn [hasMore]. rewrite E3. reflexivity.
Qed.

Lemma pagination_exhaustion_witness :
  exists records calls,
    getCharges
      (scripted_charges [Page.mk (mock_charges 0 100) true;
                         Page.mk (mock_charges 100 100) true;
                         Page.mk (mock_charges 200 37) false])
      "acct_1" 1704067200 1706745600 5 [] = Some (records, calls)
    /\ length records = 237%nat /\ length calls = 3%nat.
Proof.
  destruct (pagination_exhaustion
              (mock_charges 0 100) (mock_charges 100 100) (mock_charges 200 37)
              (Charge.mk (String "c" (String (ascii_of_nat 100) ""))
                 99 100 None PiNull SrcNull)
              (Charge.mk (String "c" (String (ascii_of_nat 200) ""))
                 199 100 None PiNull SrcNull)
              "acct_1" 1704067200 1706745600 5)
    as [Hrun Hlen];
    [ reflexivity | reflexivity | reflexivity
    | reflexivity | discriminate | reflexivity | discriminate | lia | ].
  eexists. eexists. split; [exact Hrun|]. split; [exact Hlen | reflexivity].
Defined.

(** *** The empty page *)

Lemma always_empty_more_charges acct s e fuel (st : Loop Charge.t) :
  hasMore st = true ->
  while_hasMore fuel (getCharges_body always_empty_more acct s e) st = None.
Proof.
  revert st. induction fuel as [|fuel IH]; intros st Hst; simpl; rewrite Hst.
  - reflexivity.
  - apply IH. reflexivity.
Qed.

(** C7, as stated, fails: after an empty page that comes with
    [has_more = true] the collector calls again, here once more before a
    one-record last page, and against an upstream that keeps answering so
    no amount of fuel lets it return. *)
Lemma empty_page_does_not_stop :
  getCharges
    (scripted_charges
       [Page.mk [] true;
        Page.mk [Charge.mk "ch_1" 5 100 None PiNull SrcNull] false])
    "acct_1" 0 10 2 []
  = Some ([Charge.mk "ch_1" 5 100 None PiNull SrcNull],
          [charges_call "acct_1" 0 10 None; charges_call "acct_1" 0 10 None])
  /\ ~ (exists fuel result,
          getCharges always_empty_more "acct_1" 0 10 fuel [] = Some result).
Proof.
  split; [reflexivity|].
  intros (fuel & result & H). unfold getCharges in H.
  rewrite always_empty_more_charges in H by reflexivity. discriminate H.
Qed.

(** C7, amended. The loop goes on or stops as [has_more] says, whatever
    the page holds: an empty page with [has_more = false] ends it with the
    records collected so far, and after an empty page with
    [has_more = true] it goes on from the same records without a cursor;
    this for [getCharges] and for [getRefunds]. *)
Theorem empty_page_policy (stripeInstance : Upstream)
    (connectedAccountId : string) (startTimestamp endTimestamp : Z)
    (fuel : nat) (more : bool) :
  (forall st : Loop Charge.t,
     hasMore st = true ->
     charges_list stripeInstance (calls st)
       (page_params startTimestamp endTimestamp (startingAfter st))
       connectedAccountId = Some (Page.mk [] more) ->
     let body := getCharges_body stripeInstance connectedAccountId
                   startTimestamp endTimestamp in
     let next := after_empty_page st
                   (Call.mk ChargesList
                      (page_params startTimestamp endTimestamp
                         (startingAfter st)) connectedAccountId) in
     while_hasMore (S fuel) body st
     = if more then while_hasMore fuel body next
       else Some {| collected := collected st; hasMore := false;
                    startingAfter := None; calls := calls next |}) /\
  (forall st : Loop Refund.t,
     hasMore st = true ->
     refunds_list stripeInstance (calls st)
       (page_params startTimestamp endTimestamp (startingAfter st))
       connectedAccountId = Some (Page.mk [] more) ->
     let body := getRefunds_body stripeInstance connectedAccountId
                   startTimestamp endTimestamp in
     let next := after_empty_page st
                   (Call.mk RefundsList
                      (page_params startTimestamp endTimestamp
                         (startingAfter st)) connectedAccountId) in
     while_hasMore (S fuel) body st
     = if more then while_hasMore fuel body next
       else Some {| collected := collected st; hasMore := false;
                    startingAfter := None; calls := calls next |}).
Proof.
  split; intros st Hst Hpage body next; subst body next.
  - cbn [while_hasMore]. rewrite Hst.
    assert (E : getCharges_body stripeInstance connectedAccountId
                  startTimestamp endTimestamp st
                = {| collected := collected st; hasMore := more;
                     startingAfter := None;
                     calls := calls st ++
                       [Call.mk ChargesList
                          (page_params startTimestamp endTimestamp
                             (startingAfter st)) connectedAccountId] |}).
    { unfold getCharges_body. rewrite Hpage. cbn. rewrite app_nil_r.
      reflexivity. }
    rewrite E. destruct more; [reflexivity|].
    destruct fuel; reflexivity.
  - cbn [while_hasMore]. rewrite Hst.
    assert (E : getRefunds_body stripeInstance connectedAccountId
                  startTimestamp endTimestamp st
                = {| collected := collected st; hasMore := more;
                     startingAfter := None;
                     calls := calls st ++
                       [Call.mk RefundsList
                          (page_params startTimestamp endTimestamp
                             (startingAfter st)) connectedAccountId] |}).
    { unfold getRefunds_body. rewrite Hpage. cbn. rewrite app_nil_r.
      reflexivity. }
    rewrite E. destruct more; [reflexivity|].
    destruct fuel; reflexivity.
Qed.

Lemma empty_page_policy_witness :
  while_hasMore 3
    (getCharges_body
       (scripted_charges
          [Page.mk [] true;
           Page.mk [Charge.mk "ch_1" 5 100 None PiNull SrcNull] false])
       "acct_1" 0 10)
    (start_loop [])
  = while_hasMore 2
      (getCharges_body
         (scripted_charges
            [Page.mk [] true;
             Page.mk [Charge.mk "ch_1" 5 100 None PiNull SrcNull] false])
         "acct_1" 0 10)
      {| collected := []; hasMore := true; startingAfter := None;
         calls := [charges_call "acct_1" 0 10 None] |}.
Proof.
  apply (proj1 (empty_page_policy
                  (scripted_charges
                     [Page.mk [] true;
                      Page.mk [Charge.mk "ch_1" 5 100 None PiNull SrcNull]
                        false])
                  "acct_1" 0 10 2 true) (start_loop []));
    reflexivity.
Defined.

(** *** Declines and charges *)

Lemma declines_body_is_charges_body up acct s e (st : Loop Charge.t) :
  getDeclines_body up acct s e st = getCharges_body up acct s e st.
Proof. reflexivity. Qed.

Lemma declines_loop_is_charges_loop up acct s e fuel (st : Loop Charge.t) :
  while_hasMore fuel (getDeclines_body up acct s e) st
  = while_hasMore fuel (getCharges_body up acct s e) st.
Proof.
  revert st. induction fuel as [|fuel IH]; intros st; simpl.
  - reflexivity.
  - destruct (hasMore st); [|reflexivity].
    rewrite declines_body_is_charges_body. apply IH.
Qed.

(** C8. Run from the same point against the same upstream, with the same
    account and window, [getDeclines] returns the record sequence that
    [getCharges] returns (and runs out of fuel when it does): it issues the
    same charge-listing calls, with no status filter, and keeps every
    record.  [getCharges] only adds its logging probe when it found
    nothing. *)
Theorem declines_duplicate_charges (stripeInstance : Upstream)
    (connectedAccountId : string) (startTimestamp endTimestamp : Z)
    (fuel : nat) (calls0 : list Call.t) :
  match getDeclines stripeInstance connectedAccountId startTimestamp
          endTimestamp fuel calls0,
        getCharges stripeInstance connectedAccountId startTimestamp
          endTimestamp fuel calls0 with
  | Some (declines, declineCalls), Some (charges, chargeCalls) =>
      declines = charges /\
      chargeCalls
      = declineCalls
        ++ (if (Z.of_nat (length charges) =? 0)
            then [probe_call connectedAccountId] else [])
  | None, None => True
  | _, _ => False
  end.
Proof.
  unfold getDeclines, getCharges.
  rewrite declines_loop_is_charges_loop.
  destruct (while_hasMore fuel
              (getCharges_body stripeInstance connectedAccountId
                 startTimestamp endTimestamp) (start_loop calls0))
    as [st|]; [|exact I].
  destruct (Z.of_nat (length (collected st)) =? 0) eqn:E; rewrite ?E.
  - split; reflexivity.
  - split; [reflexivity | rewrite app_nil_r; reflexivity].
Qed.

(** *** Events *)

Lemma prefix_app (p s : string) :
  String.prefix p s = true <-> exists rest, s = (p ++ rest)%string.
Proof.
  revert s. induction p as [|c p IH]; intros s; simpl.
  - split; [intros _; exists s; reflexivity | destruct s; reflexivity].
  - destruct s as [|c' s].
    + split; [discriminate | intros (rest & H); discriminate H].
    + simpl. destruct (ascii_dec c c') as [->|Hne].
      * rewrite IH. split; intros (rest & H); exists rest.
        -- rewrite H. reflexivity.
        -- injection H as H. exact H.
      * split; [discriminate|]. intros (rest & H). injection H as Hc _.
        congruence.
Qed.

Lemma paymentRelated_prefix (event : Event.t) :
  paymentRelated event = true
  <-> exists p rest,
        In p payment_prefixes /\ Event.type event = (p ++ rest)%string.
Proof.
  unfold paymentRelated, payment_prefixes. split.
  - intros H. repeat (apply orb_prop in H; destruct H as [H|H]);
      apply prefix_app in H; destruct H as (rest & H);
      eexists; exists rest; (split; [|exact H]); simpl; tauto.
  - intros (p & rest & Hin & Ht).
    assert (Hp : String.prefix p (Event.type event) = true)
      by (apply prefix_app; exists rest; exact Ht).
    simpl in Hin.
    destruct Hin as [<-|[<-|[<-|[<-|[<-|[]]]]]]; rewrite Hp;
      rewrite ?orb_true_r; reflexivity.
Qed.

Lemma events_body_follows up acct s e st raw :
  follows st raw ->
  follows (getEvents_body up acct s e st)
          (unfiltered_events_body up acct s e raw).
Proof.
  intros (Hc & Hm & Ha & Hl).
  unfold getEvents_body, unfiltered_events_body. rewrite Ha, Hl.
  destruct (events_list up (calls raw) (page_params s e (startingAfter raw))
              acct) as [response|]; repeat split; cbn; try congruence.
  rewrite List.filter_app, Hc. reflexivity.
Qed.

Lemma events_loop_follows up acct s e fuel st raw :
  follows st raw ->
  match while_hasMore fuel (getEvents_body up acct s e) st,
        while_hasMore fuel (unfiltered_events_body up acct s e) raw with
  | Some st', Some raw' => follows st' raw'
  | None, None => True
  | _, _ => False
  end.
Proof.
  revert st raw. induction fuel as [|fuel IH]; intros st raw H; simpl.
  - destruct H as (Hc & Hm & Ha & Hl). rewrite Hm.
    destruct (hasMore raw) eqn:E; [exact I | repeat split; congruence].
  - pose proof H as (Hc & Hm & Ha & Hl). rewrite Hm.
    destruct (hasMore raw) eqn:E; [|repeat split; congruence].
    apply IH, events_body_follows. repeat split; congruence.
Qed.

(** C10. [getEvents] returns only events whose type starts with
    ["charge."], ["payment_intent."], ["refund."], ["dispute."] or
    ["balance."]: what it returns is the payment-related part, in order, of
    what the same loop without the filter collects, the other events being
    dropped, and it issues the same calls; at each page the cursor becomes
    the identifier of the last element of the unfiltered page. *)
Theorem events_filtered (stripeInstance : Upstream)
    (connectedAccountId : string) (startTimestamp endTimestamp : Z)
    (fuel : nat) (calls0 : list Call.t) :
  match getEvents stripeInstance connectedAccountId startTimestamp
          endTimestamp fuel calls0,
        while_hasMore fuel
          (unfiltered_events_body stripeInstance connectedAccountId
             startTimestamp endTimestamp) (start_loop calls0) with
  | Some (events, issued), Some raw =>
      events = List.filter paymentRelated (collected raw) /\
      issued = calls raw /\
      Forall (fun event =>
        exists p rest,
          In p payment_prefixes /\ Event.type event = (p ++ rest)%string)
        events
  | None, None => True
  | _, _ => False
  end /\
  (forall (st : Loop Event.t) (response : Page.t Event.t),
     events_list stripeInstance (calls st)
       (page_params startTimestamp endTimestamp (startingAfter st))
       connectedAccountId = Some response ->
     let st' := getEvents_body stripeInstance connectedAccountId
                  startTimestamp endTimestamp st in
     collected st'
     = collected st ++ List.filter paymentRelated (Page.data response) /\
     startingAfter st' = last_id Event.id (Page.data response) /\
     hasMore st' = Page.has_more response).
Proof.
  split.
  - unfold getEvents.
    pose proof (events_loop_follows stripeInstance connectedAccountId
                  startTimestamp endTimestamp fuel
                  (start_loop calls0) (start_loop calls0)) as H.
    destruct (while_hasMore fuel
                (getEvents_body stripeInstance connectedAccountId
                   startTimestamp endTimestamp) (start_loop calls0)) as [st|];
    destruct (while_hasMore fuel
                (unfiltered_events_body stripeInstance connectedAccountId
                   startTimestamp endTimestamp) (start_loop calls0))
      as [raw|];
      try (apply H; repeat split; reflexivity).
    destruct H as (Hc & _ & _ & Hl); [repeat split; reflexivity|].
    split; [exact Hc|]. split; [exact Hl|].
    rewrite Hc. apply List.Forall_forall. intros event Hin.
    apply filter_In in Hin as [_ Hin]. apply paymentRelated_prefix, Hin.
  - intros st response Hpage st'. subst st'.
    unfold getEvents_body. rewrite Hpage. cbn. repeat split.
Qed.

Lemma events_filtered_witness :
  let st' :=
    getEvents_body
      (scripted_events
         [Page.mk [Event.mk "evt_1" 10 "charge.succeeded";
                   Event.mk "evt_2" 20 "customer.created"] true])
      "acct_1" 0 100 (start_loop []) in
  collected st' = [Event.mk "evt_1" 10 "charge.succeeded"] /\
  startingAfter st' = Some "evt_2" /\
  hasMore st' = true.
Proof.
  exact (proj2 (events_filtered
                  (scripted_events
                     [Page.mk [Event.mk "evt_1" 10 "charge.succeeded";
                               Event.mk "evt_2" 20 "customer.created"] true])
                  "acct_1" 0 100 1 [])
               (start_loop [])
               (Page.mk [Event.mk "evt_1" 10 "charge.succeeded";
                         Event.mk "evt_2" 20 "customer.created"] true)
               eq_refl).
Defined.

(** ** The multi-account orchestrator *)

Section OrchestratorFacts.

Variable accounts_retrieve : string -> Result Account.t.
Variable getTransactions :
  string -> string -> Z -> Z -> timezone -> Result (list TransactionData).
Variables (secretKey : string) (startDate endDate : Z) (tz : timezone).

Lemma process_accounts accountIds allTransactions accountInfos :
  fold_left
    (process_account accounts_retrieve getTransactions secretKey
       startDate endDate tz)
    accountIds (allTransactions, accountInfos)
  = (allTransactions
       ++ flat_map (account_rows accounts_retrieve getTransactions secretKey
                      startDate endDate tz) accountIds,
     accountInfos ++ flat_map (account_infos accounts_retrieve) accountIds).
Proof.
  revert allTransactions accountInfos.
  induction accountIds as [|accountId accountIds IH];
    intros allTransactions accountInfos; simpl.
  - rewrite !app_nil_r. reflexivity.
  - unfold account_rows at 1, account_infos at 1.
    destruct (accounts_retrieve accountId) as [account|error].
    + destruct (getTransactions secretKey accountId startDate endDate tz)
        as [rows|error]; rewrite IH, <- !app_assoc; reflexivity.
    + rewrite IH. reflexivity.
Qed.

Lemma account_rows_fetched accountId row :
  In row (account_rows accounts_retrieve getTransactions secretKey
            startDate endDate tz accountId) ->
  account_id row = accountId /\
  fetched accounts_retrieve getTransactions secretKey startDate endDate tz
    accountId.
Proof.
  unfold account_rows, fetched.
  destruct (accounts_retrieve accountId) as [account|error];
    [|intros []].
  destruct (getTransactions secretKey accountId startDate endDate tz)
    as [rows|error]; [|intros []].
  intros Hin. apply in_map_iff in Hin as (tx & <- & _).
  split; [reflexivity | eauto].
Qed.

Lemma account_rows_throws accountId :
  fetch_throws accounts_retrieve getTransactions secretKey startDate endDate
    tz accountId ->
  account_rows accounts_retrieve getTransactions secretKey startDate endDate
    tz accountId = [].
Proof.
  unfold account_rows.
  intros [(error & H)|(error & H)]; rewrite H; [reflexivity|].
  destruct (accounts_retrieve accountId); reflexivity.
Qed.

End OrchestratorFacts.

Lemma sort_insert_perm {A : Type} (compare : A -> A -> Z) x (l : list A) :
  Permutation (sort_insert compare x l) (x :: l).
Proof.
  induction l as [|y l IH]; simpl; [reflexivity|].
  destruct (0 <? compare x y); [|reflexivity].
  rewrite IH. apply perm_swap.
Qed.

Lemma js_sort_perm {A : Type} (compare : A -> A -> Z) (l : list A) :
  Permutation (js_sort compare l) l.
Proof.
  induction l as [|x l IH]; simpl; [reflexivity|].
  rewrite sort_insert_perm, IH. reflexivity.
Qed.

(** C5. Once the client is built, [getMultiAccountTransactions] returns
    and does not throw, whatever the per-account calls do.  Its rows are
    the rows of the accounts whose two calls returned, each tagged with its
    account, the others contributing none: an account whose fetch throws is
    skipped and the accounts after it are still processed.  When every
    account's fetch throws there are no rows. *)
Theorem partial_failure_tolerance
    (new_Stripe : string -> Result unit)
    (accounts_retrieve : string -> Result Account.t)
    (getTransactions :
       string -> string -> Z -> Z -> timezone -> Result (list TransactionData))
    (secretKey : string) (accountIds : list string)
    (startDate endDate : Z) (tz : timezone) :
  new_Stripe secretKey = Returns tt ->
  exists result,
    getMultiAccountTransactions new_Stripe accounts_retrieve getTransactions
      secretKey accountIds startDate endDate tz = Returns result /\
    MultiAccount.transactions result
    = js_sort newest_first
        (flat_map (account_rows accounts_retrieve getTransactions secretKey
                     startDate endDate tz) accountIds) /\
    Permutation (MultiAccount.transactions result)
      (flat_map (account_rows accounts_retrieve getTransactions secretKey
                   startDate endDate tz) accountIds) /\
    Forall (fun row =>
      In (account_id row) accountIds /\
      fetched accounts_retrieve getTransactions secretKey startDate endDate tz
        (account_id row))
      (MultiAccount.transactions result) /\
    (Forall (fetch_throws accounts_retrieve getTransactions secretKey
               startDate endDate tz) accountIds ->
     MultiAccount.transactions result = []) /\
    MultiAccount.accounts result
    = flat_map (account_infos accounts_retrieve) accountIds.
Proof.
  intros Hclient. unfold getMultiAccountTransactions. rewrite Hclient.
  rewrite process_accounts. simpl app.
  eexists. split; [reflexivity|]. cbn [MultiAccount.transactions].
  split; [reflexivity|]. split; [apply js_sort_perm|].
  split; [|split; [|reflexivity]].
  - apply List.Forall_forall. intros row Hin.
    apply (Permutation_in _ (js_sort_perm _ _)) in Hin.
    apply in_flat_map in Hin as (accountId & Hid & Hrow).
    apply account_rows_fetched in Hrow as [<- Hf]. split; assumption.
  - intros Hall.
    replace (flat_map (account_rows accounts_retrieve getTransactions
                         secretKey startDate endDate tz) accountIds)
      with (@nil TransactionData); [reflexivity|].
    induction Hall as [|accountId accountIds Hthrows _ IH]; simpl.
    + reflexivity.
    + rewrite account_rows_throws by exact Hthrows. exact IH.
Qed.

Lemma partial_failure_tolerance_witness :
  exists result,
    getMultiAccountTransactions (fun _ => Returns tt) mock_retrieve
      mock_getTransactions "sk_test" ["acct_1"; "acct_2"; "acct_3"] 0 1 UTC
    = Returns result /\
    Forall (fun row => In (account_id row) ["acct_1"; "acct_2"; "acct_3"])
      (MultiAccount.transactions result) /\
    map account_id (MultiAccount.transactions result)
    = ["acct_1"; "acct_3"; "acct_1"; "acct_3"].
Proof.
  destruct (partial_failure_tolerance (fun _ => Returns tt) mock_retrieve
              mock_getTransactions "sk_test" ["acct_1"; "acct_2"; "acct_3"]
              0 1 UTC eq_refl)
    as (result & Hrun & Hrows & _ & Htagged & _ & _).
  exists result. split; [exact Hrun|]. split.
  - revert Htagged. apply List.Forall_impl. intros row [Hin _]. exact Hin.
  - rewrite Hrows. reflexivity.
Defined.

(** ** Customer IP of a detail row *)






(** ** Request validation *)

Lemma split_on_nonempty sep s : split_on sep s <> [].
Proof.
  destruct s as [|c s]; simpl; [discriminate|].
  destruct (Ascii.eqb c sep); [discriminate|].
  destruct (split_on sep s); discriminate.
Qed.

(** The check [accountIdList.length === 0] of the handlers never fires:
    no request is answered with its message. *)
Lemma account_guard_never_fires
    (moment_parse : string -> option Z) (days_ago : Z -> string)
    (req : Request.t) :
  multi_route moment_parse days_ago req
  <> BadRequest "At least one account ID is required".
Proof.
  unfold multi_route.
  destruct (period_range days_ago req) as [message|[s e]] eqn:Hp.
  - unfold period_range in Hp.
    repeat match type of Hp with
           | (if ?b then _ else _) = _ => destruct b
           end; try discriminate Hp; injection Hp as <-; discriminate.
  - destruct (moment_parse s) as [si|]; [|discriminate].
    destruct (moment_parse e) as [ei|]; [|discriminate].
    destruct (ei <? si); [discriminate|].
    destruct (Request.isMaster req); [|discriminate].
    pose proof (split_on_nonempty ","%char (Request.accountIds req)) as Hne.
    destruct (split_on ","%char (Request.accountIds req)); [contradiction|].
    discriminate.
Qed.

(** C9, as stated, fails: with a preset period a request without dates is
    served, and a path parameter that holds no identifier at all still
    gives a non-empty list, which is passed on to the service. *)
Lemma request_not_rejected :
  missing None = true /\
  multi_route mock_moment_parse mock_days_ago
    (Request.mk "acct_1" None None None (Some "daily") true "acct_1" "sk_test")
  = CallService "sk_test" ["acct_1"] "2024-03-30" "2024-03-31" "UTC" /\
  detailed_route mock_moment_parse mock_days_ago
    (Request.mk "acct_1" None None None (Some "daily") true "acct_1" "sk_test")
  = CallService "sk_test" ["acct_1"] "2024-03-30" "2024-03-31" "UTC" /\
  multi_route mock_moment_parse mock_days_ago
    (Request.mk " , " (Some "2024-03-01") (Some "2024-03-31") None None
       true "acct_1" "sk_test")
  = CallService "sk_test" [""; ""] "2024-03-01" "2024-03-31" "UTC".
Proof. repeat split; vm_compute; reflexivity. Qed.

(** C9, amended. A request for the custom period, which is the default,
    is answered with a 400 and never reaches the service when a date is
    missing or empty, when moment cannot parse one, or when the start is
    after the end; this on both report routes. *)
Theorem invalid_custom_request
    (moment_parse : string -> option Z) (days_ago : Z -> string)
    (req : Request.t) :
  defaulted (Request.period req) "custom" = "custom" ->
  missing (Request.start_date req) = true \/
  missing (Request.end_date req) = true \/
  moment_parse (defaulted (Request.start_date req) "") = None \/
  moment_parse (defaulted (Request.end_date req) "") = None \/
  (exists startInstant endInstant,
     moment_parse (defaulted (Request.start_date req) "") = Some startInstant /\
     moment_parse (defaulted (Request.end_date req) "") = Some endInstant /\
     endInstant < startInstant) ->
  exists message,
    multi_route moment_parse days_ago req = BadRequest message /\
    detailed_route moment_parse days_ago req = BadRequest message.
Proof.
  intros Hcustom Hbad.
  unfold multi_route, detailed_route, period_range. rewrite Hcustom. simpl.
  destruct (missing (Request.start_date req)) eqn:Ms; simpl;
    [eexists; split; reflexivity|].
  destruct (missing (Request.end_date req)) eqn:Me; simpl;
    [eexists; split; reflexivity|].
  destruct (moment_parse (defaulted (Request.start_date req) ""))
    as [startInstant|] eqn:Ps; [|eexists; split; reflexivity].
  destruct (moment_parse (defaulted (Request.end_date req) ""))
    as [endInstant|] eqn:Pe; [|eexists; split; reflexivity].
  destruct Hbad as [H|[H|[H|[H|(si & ei & Hs & He & Hlt)]]]];
    try discriminate H.
  injection Hs as <-. injection He as <-.
  destruct (Z.ltb_spec endInstant startInstant) as [_|Hge]; [|lia].
  eexists; split; reflexivity.
Qed.

Lemma invalid_custom_request_witness :
  multi_route mock_moment_parse mock_days_ago
    (Request.mk "acct_1" (Some "2024-03-31") (Some "2024-03-01") None None
       true "acct_1" "sk_test")
  = BadRequest "start_date cannot be after end_date".
Proof.
  destruct (invalid_custom_request mock_moment_parse mock_days_ago
              (Request.mk "acct_1" (Some "2024-03-31") (Some "2024-03-01")
                 None None true "acct_1" "sk_test") eq_refl)
    as (message & Hmulti & _).
  - right. right. right. right.
    exists 1711843200000, 1709251200000.
    split; [vm_compute; reflexivity|]. split; [vm_compute; reflexivity|]. lia.
  - rewrite Hmulti. vm_compute in Hmulti. congruence.
Defined.

(** * Further properties *)

(** ** The daily aggregator *)

Lemma sumZ_map_add {A : Type} (f g : A -> Z) (l : list A) :
  sumZ (map (fun x => f x + g x) l) = sumZ (map f l) + sumZ (map g l).
Proof. induction l as [|x l IH]; simpl; [reflexivity | rewrite IH; lia]. Qed.

(** Summing an indicator over the days of a range. *)
Lemma sumZ_indicator (x : Z) (n : nat) (m : Z) :
  sumZ (map (fun d => if d =? x then 1 else 0) (seqZ m (Z.of_nat n)))
  = if (m <=? x) && (x <? m + Z.of_nat n) then 1 else 0.
Proof.
  revert m. induction n as [|n IH]; intros m.
  - simpl. rewrite Z.add_0_r.
    destruct (Z.leb_spec m x), (Z.ltb_spec x m); simpl; lia.
  - rewrite Nat2Z.inj_succ, seqZ_cons by lia. simpl.
    replace (Z.pred (Z.succ (Z.of_nat n))) with (Z.of_nat n) by lia.
    rewrite IH.
    destruct (Z.eqb_spec m x), (Z.leb_spec (Z.succ m) x),
      (Z.ltb_spec x (Z.succ m + Z.of_nat n)), (Z.leb_spec m x),
      (Z.ltb_spec x (m + Z.succ (Z.of_nat n))); simpl; lia.
Qed.

Lemma records_on_range {R : Type} (day_of : R -> Z) records startDate endDate :
  sumZ (map (fun d => records_on day_of d records)
            (seqZ startDate (endDate - startDate + 1)))
  = records_in_range day_of startDate endDate records.
Proof.
  unfold records_on, records_in_range.
  induction records as [|r records IH]; simpl.
  - induction (seqZ startDate (endDate - startDate + 1)) as [|d ds IHd];
      simpl; [reflexivity | rewrite IHd; reflexivity].
  - transitivity
      (sumZ (map (fun d => if d =? day_of r then 1 else 0)
               (seqZ startDate (endDate - startDate + 1)))
       + sumZ (map (fun d =>
                  Z.of_nat (length (List.filter (fun r0 => d =? day_of r0)
                                      records)))
               (seqZ startDate (endDate - startDate + 1)))).
    + rewrite <- sumZ_map_add. f_equal. apply map_ext. intros d.
      destruct (d =? day_of r); simpl length; lia.
    + rewrite IH.
      destruct (Z.le_gt_cases startDate (endDate + 1)) as [Hle|Hgt].
      * replace (endDate - startDate + 1)
          with (Z.of_nat (Z.to_nat (endDate - startDate + 1))) by lia.
        rewrite sumZ_indicator.
        destruct (Z.leb_spec startDate (day_of r)),
          (Z.leb_spec (day_of r) endDate),
          (Z.ltb_spec (day_of r)
             (startDate + Z.of_nat (Z.to_nat (endDate - startDate + 1))));
          cbn [andb length]; lia.
      * rewrite seqZ_nil by lia. simpl.
        destruct (Z.leb_spec startDate (day_of r)),
          (Z.leb_spec (day_of r) endDate); cbn [andb length sumZ]; lia.
Qed.

(** X1. With the end before the start the initialisation loop does not
    run: there is no bucket, and every record is dropped. *)
Theorem inverted_range_no_bucket charges refunds chargebacks declines
    startDate endDate tz accountId :
  endDate < startDate ->
  groupTransactionsByDate charges refunds chargebacks declines
    startDate endDate tz accountId = [].
Proof.
  intros Hlt. rewrite group_by_day, seqZ_nil by lia. reflexivity.
Qed.

Lemma inverted_range_no_bucket_witness :
  groupTransactionsByDate
    [Charge.mk "ch_1" 90000 12345 None PiNull SrcNull] [] [] [] 2 1 UTC
    "acct_1" = [].
Proof.
  apply (inverted_range_no_bucket
           [Charge.mk "ch_1" 90000 12345 None PiNull SrcNull] [] [] []
           2 1 UTC "acct_1").
  lia.
Defined.

(** X2. Every record whose local day lies in the range is counted in
    exactly one bucket, and the others in none: over the buckets, each
    count adds up to the number of records of its kind in the range. *)
Theorem counts_conserved charges refunds chargebacks declines
    startDate endDate tz accountId :
  let days := groupTransactionsByDate charges refunds chargebacks declines
                startDate endDate tz accountId in
  sumZ (map charges_count days)
  = records_in_range (charge_day tz) startDate endDate charges /\
  sumZ (map refunds_count days)
  = records_in_range (refund_day tz) startDate endDate refunds /\
  sumZ (map chargebacks_count days)
  = records_in_range (dispute_day tz) startDate endDate chargebacks /\
  sumZ (map declines_count days)
  = records_in_range (charge_day tz) startDate endDate declines.
Proof.
  intros days. unfold days. rewrite group_by_day, !map_map.
  repeat split.
  - rewrite <- records_on_range. f_equal. apply map_ext. intros d.
    apply (day_bucket_counts tz charges refunds chargebacks declines
             accountId d).
  - rewrite <- records_on_range. f_equal. apply map_ext. intros d.
    apply (day_bucket_counts tz charges refunds chargebacks declines
             accountId d).
  - rewrite <- records_on_range. f_equal. apply map_ext. intros d.
    apply (day_bucket_counts tz charges refunds chargebacks declines
             accountId d).
  - rewrite <- records_on_range. f_equal. apply map_ext. intros d.
    apply (day_bucket_counts tz charges refunds chargebacks declines
             accountId d).
Qed.

(** X3. In every bucket the total count is the sum of the four counts,
    declines included, and no count is negative. *)
Theorem totals_count_is_the_sum charges refunds chargebacks declines
    startDate endDate tz accountId :
  Forall (fun day =>
    totals_count day
    = charges_count day + refunds_count day + chargebacks_count day
      + declines_count day /\
    0 <= charges_count day /\ 0 <= refunds_count day /\
    0 <= chargebacks_count day /\ 0 <= declines_count day)
    (groupTransactionsByDate charges refunds chargebacks declines
       startDate endDate tz accountId).
Proof.
  rewrite group_by_day. apply List.Forall_forall. intros day Hin.
  apply in_map_iff in Hin as (d & <- & _).
  destruct (day_bucket_counts tz charges refunds chargebacks declines
              accountId d) as (Hc & Hr & Hk & Hd & Ht).
  cbv zeta in *. rewrite Hc, Hr, Hk, Hd, Ht.
  unfold records_on. repeat split; lia.
Qed.

Lemma inject_Z_nonzero (n : Z) : n <> 0 -> ~ inject_Z n == 0.
Proof. unfold Qeq, inject_Z. simpl. lia. Qed.

Lemma approval_of_duplicates (n : Z) : 0 < n -> approval n n == 50.
Proof.
  intros Hn. unfold approval.
  destruct (Z.ltb_spec 0 (n + n)) as [_|H]; [|lia].
  assert (E : inject_Z n / inject_Z (n + n) * 100 * 100 == inject_Z 5000).
  { rewrite inject_Z_plus. field. rewrite <- inject_Z_plus.
    apply inject_Z_nonzero. lia. }
  rewrite E, Math_round_half. reflexivity.
Qed.

Lemma charges_body_history_free up acct s e (st st' : Loop Charge.t) :
  history_free up -> same_variables st st' ->
  same_variables (getCharges_body up acct s e st)
                 (getCharges_body up acct s e st').
Proof.
  intros Hfree (Hc & Hm & Ha). unfold getCharges_body.
  rewrite Ha, (Hfree (calls st) (calls st')).
  destruct (charges_list up (calls st') (page_params s e (startingAfter st'))
              acct) as [response|]; repeat split; cbn; congruence.
Qed.

Lemma charges_loop_history_free up acct s e fuel (st st' : Loop Charge.t) :
  history_free up -> same_variables st st' ->
  match while_hasMore fuel (getCharges_body up acct s e) st,
        while_hasMore fuel (getCharges_body up acct s e) st' with
  | Some out, Some out' => same_variables out out'
  | None, None => True
  | _, _ => False
  end.
Proof.
  intros Hfree. revert st st'.
  induction fuel as [|fuel IH]; intros st st' H; simpl;
    pose proof H as (_ & Hm & _); rewrite Hm;
    destruct (hasMore st'); try exact I; try exact H.
  apply IH, charges_body_history_free; assumption.
Qed.

(** X4. Against an upstream whose charge listing does not depend on the
    calls made before, [getDeclines] returns the charges that [getCharges]
    returns, from wherever each is run; grouped together, every bucket
    then counts as many declines as charges, and its approval percentage
    is 50 on a day with a charge and 100 on a day without. *)
Theorem duplicated_declines_halve_approval (stripeInstance : Upstream)
    (connectedAccountId : string) (startTimestamp endTimestamp : Z)
    (fuel fuel' : nat) (calls0 calls0' : list Call.t)
    (charges declines : list Charge.t) (issued issued' : list Call.t)
    (refunds : list Refund.t) (chargebacks : list Dispute.t)
    (startDate endDate : Z) (tz : timezone) :
  history_free stripeInstance ->
  getCharges stripeInstance connectedAccountId startTimestamp endTimestamp
    fuel calls0 = Some (charges, issued) ->
  getDeclines stripeInstance connectedAccountId startTimestamp endTimestamp
    fuel' calls0' = Some (declines, issued') ->
  declines = charges /\
  Forall (fun day =>
    declines_count day = charges_count day /\
    aprvl_pct day == (if 0 <? charges_count day then 50 else 100))
    (groupTransactionsByDate charges refunds chargebacks declines
       startDate endDate tz connectedAccountId).
Proof.
  intros Hfree Hcharges Hdeclines.
  assert (E : declines = charges).
  { unfold getCharges in Hcharges. unfold getDeclines in Hdeclines.
    rewrite declines_loop_is_charges_loop in Hdeclines.
    destruct (while_hasMore fuel
                (getCharges_body stripeInstance connectedAccountId
                   startTimestamp endTimestamp) (start_loop calls0))
      as [st|] eqn:Hst; [|discriminate].
    destruct (while_hasMore fuel'
                (getCharges_body stripeInstance connectedAccountId
                   startTimestamp endTimestamp) (start_loop calls0'))
      as [st'|] eqn:Hst'; [|discriminate].
    apply (while_hasMore_fuel _ fuel (Nat.max fuel fuel')) in Hst; [|lia].
    apply (while_hasMore_fuel _ fuel' (Nat.max fuel fuel')) in Hst'; [|lia].
    pose proof (charges_loop_history_free stripeInstance connectedAccountId
                  startTimestamp endTimestamp (Nat.max fuel fuel')
                  (start_loop calls0) (start_loop calls0') Hfree) as Hsame.
    rewrite Hst, Hst' in Hsame.
    destruct Hsame as (Hc & _ & _); [repeat split; reflexivity|].
    injection Hdeclines as <- _.
    destruct (Z.of_nat (length (collected st)) =? 0);
      injection Hcharges as <- _; symmetry; exact Hc. }
  split; [exact E|]. subst declines.
  rewrite group_by_day. apply List.Forall_forall. intros day Hin.
  apply in_map_iff in Hin as (d & <- & _).
  destruct (day_bucket_counts tz charges refunds chargebacks charges
              connectedAccountId d) as (Hc & _ & _ & Hd & _).
  cbv zeta in Hc, Hd. split; [congruence|].
  change (aprvl_pct
            (day_bucket tz charges refunds chargebacks charges
               connectedAccountId d))
    with (approval
            (charges_count
               (day_bucket tz charges refunds chargebacks charges
                  connectedAccountId d))
            (declines_count
               (day_bucket tz charges refunds chargebacks charges
                  connectedAccountId d))).
  rewrite Hd, Hc.
  destruct (Z.ltb_spec 0 (records_on (charge_day tz) d charges)) as [Hpos|H0].
  - apply approval_of_duplicates, Hpos.
  - unfold approval.
    destruct (Z.ltb_spec 0
                (records_on (charge_day tz) d charges
                 + records_on (charge_day tz) d charges)); [lia|].
    reflexivity.
Qed.

Lemma duplicated_declines_halve_approval_witness :
  Forall (fun day =>
    declines_count day = charges_count day /\
    aprvl_pct day == (if 0 <? charges_count day then 50 else 100))
    (groupTransactionsByDate
       [Charge.mk "ch_1" 100 500 None PiNull SrcNull;
        Charge.mk "ch_2" 200 700 None PiNull SrcNull;
        Charge.mk "ch_3" 300 900 None PiNull SrcNull]
       [] []
       [Charge.mk "ch_1" 100 500 None PiNull SrcNull;
        Charge.mk "ch_2" 200 700 None PiNull SrcNull;
        Charge.mk "ch_3" 300 900 None PiNull SrcNull]
       0 1 UTC "acct_1").
Proof.
  apply (duplicated_declines_halve_approval paged_by_cursor "acct_1" 0 1000
           2 5 []
           [Call.mk RefundsList (page_params 0 1000 None) "acct_1"]
           [Charge.mk "ch_1" 100 500 None PiNull SrcNull;
            Charge.mk "ch_2" 200 700 None PiNull SrcNull;
            Charge.mk "ch_3" 300 900 None PiNull SrcNull]
           [Charge.mk "ch_1" 100 500 None PiNull SrcNull;
            Charge.mk "ch_2" 200 700 None PiNull SrcNull;
            Charge.mk "ch_3" 300 900 None PiNull SrcNull]
           [Call.mk ChargesList (page_params 0 1000 None) "acct_1";
            Call.mk ChargesList (page_params 0 1000 (Some "ch_2")) "acct_1"]
           [Call.mk RefundsList (page_params 0 1000 None) "acct_1";
            Call.mk ChargesList (page_params 0 1000 None) "acct_1";
            Call.mk ChargesList (page_params 0 1000 (Some "ch_2")) "acct_1"]
           [] [] 0 1 UTC).
  - intros calls calls' params account. reflexivity.
  - reflexivity.
  - reflexivity.
Defined.

(** ** Rounding *)


(** X5. Rounding to two decimals moves an amount by at most half a cent,
    upwards on a tie, and rounding a rounded amount changes nothing. *)
Theorem round2_half_cent (x : Q) :
  (x - (1 # 200) < round2 x)%Q /\
  (round2 x <= x + (1 # 200))%Q /\
  round2 (round2 x) == round2 x.
Proof.
  pose proof (Qfloor_le (x * 100 + (1 # 2))) as Hle.
  pose proof (Qlt_floor (x * 100 + (1 # 2))) as Hlt.
  rewrite inject_Z_plus in Hlt.
  unfold round2, Math_round.
  set (n := inject_Z (Qfloor (x * 100 + (1 # 2)))) in *.
  change (inject_Z 1) with 1%Q in Hlt.
  assert (E : n / 100 == n * (1 # 100)) by reflexivity.
  repeat split.
  - rewrite E. lra.
  - rewrite E. lra.
  - subst n. apply (round2_cents (Qfloor (x * 100 + (1 # 2)))).
Qed.

(** ** The paginated collectors *)

Lemma while_hasMore_done {R : Type} (body : Loop R -> Loop R) fuel st :
  hasMore st = false -> while_hasMore fuel body st = Some st.
Proof. intros H. destruct fuel; simpl; rewrite H; reflexivity. Qed.

Lemma scripted_charges_body script acct s e acc cursor log :
  getCharges_body (scripted_charges script) acct s e
    (mkLoop acc true cursor log)
  = match nth_error script (length log) with
    | Some response =>
        mkLoop (acc ++ Page.data response) (Page.has_more response)
          (last_id Charge.id (Page.data response))
          (log ++ [Call.mk ChargesList (page_params s e cursor) acct])
    | None =>
        mkLoop acc false cursor
          (log ++ [Call.mk ChargesList (page_params s e cursor) acct])
    end.
Proof. reflexivity. Qed.

Lemma scripted_charges_loop (acct : string) (s e : Z) :
  forall (rest done : list (Page.t Charge.t)) (acc : list Charge.t)
         (cursor : option string) (log : list Call.t) (fuel : nat),
  length log = length done ->
  (length rest < fuel)%nat ->
  exists st,
    while_hasMore fuel
      (getCharges_body (scripted_charges (done ++ rest)) acct s e)
      (mkLoop acc true cursor log) = Some st /\
    collected st = acc ++ concat (map Page.data (served rest)) /\
    length (calls st) = (length log + pagination_calls rest)%nat.
Proof.
  induction rest as [|page rest IH]; intros done acc cursor log fuel Hlog Hfuel;
    (destruct fuel as [|fuel]; [simpl in Hfuel; lia|]);
    change (while_hasMore (S fuel)
              (getCharges_body (scripted_charges (done ++ ?r)) acct s e)
              (mkLoop acc true cursor log))
      with (while_hasMore fuel
              (getCharges_body (scripted_charges (done ++ r)) acct s e)
              (getCharges_body (scripted_charges (done ++ r)) acct s e
                 (mkLoop acc true cursor log)));
    rewrite scripted_charges_body.
  - replace (nth_error (done ++ []) (length log))
      with (@None (Page.t Charge.t))
      by (symmetry; apply nth_error_None; rewrite app_nil_r; lia).
    eexists. split; [apply while_hasMore_done; reflexivity|].
    cbn. rewrite app_nil_r, length_app. split; [reflexivity | simpl; lia].
  - replace (nth_error (done ++ page :: rest) (length log)) with (Some page)
      by (rewrite Hlog, nth_error_app2, Nat.sub_diag by lia; reflexivity).
    destruct page as [data more]. cbn [Page.data Page.has_more].
    destruct more.
    + replace (done ++ Page.mk data true :: rest)
        with ((done ++ [Page.mk data true]) ++ rest)
        by (rewrite <- app_assoc; reflexivity).
      destruct (IH (done ++ [Page.mk data true]) (acc ++ data)
                  (last_id Charge.id data)
                  (log ++ [Call.mk ChargesList (page_params s e cursor) acct])
                  fuel) as (st & Hst & Hc & Hl).
      * rewrite !length_app. simpl. lia.
      * simpl in Hfuel. lia.
      * exists st. split; [exact Hst|]. split.
        -- rewrite Hc. cbn. rewrite <- app_assoc. reflexivity.
        -- rewrite Hl, length_app. unfold pagination_calls. cbn.
           destruct (forallb Page.has_more rest); simpl; lia.
    + eexists. split; [apply while_hasMore_done; reflexivity|].
      cbn. rewrite app_nil_r, length_app. split; [reflexivity | simpl; lia].
Qed.

(** X6. Against a scripted upstream, whatever the script, [getCharges]
    returns, given fuel for one call more than the script has pages: it
    returns the records of the pages up to the first one that says
    [has_more = false], in order, or of all the pages when none says so and
    the call after the last page throws; it issues one call per page seen,
    one more in the second case, and its logging probe when it found
    nothing. *)
Theorem collects_until_exhausted (script : list (Page.t Charge.t))
    (connectedAccountId : string) (startTimestamp endTimestamp : Z)
    (fuel : nat) :
  (length script < fuel)%nat ->
  exists issued,
    getCharges (scripted_charges script) connectedAccountId
      startTimestamp endTimestamp fuel []
    = Some (concat (map Page.data (served script)), issued) /\
    length issued
    = (pagination_calls script
       + (if (Z.of_nat (length (concat (map Page.data (served script))))
              =? 0)%Z
          then 1 else 0))%nat.
Proof.
  intros Hfuel. unfold getCharges, start_loop.
  destruct (scripted_charges_loop connectedAccountId startTimestamp
              endTimestamp script [] [] None [] fuel eq_refl Hfuel)
    as (st & Hst & Hc & Hl).
  simpl app in Hst. rewrite Hst. simpl in Hc, Hl. rewrite Hc.
  destruct (Z.of_nat (length (concat (map Page.data (served script)))) =? 0).
  - eexists. split; [reflexivity|]. rewrite length_app, Hl. simpl. lia.
  - eexists. split; [reflexivity|]. rewrite Hl. lia.
Qed.

Lemma collects_until_exhausted_witness :
  exists issued,
    getCharges
      (scripted_charges [Page.mk (mock_charges 0 3) true;
                         Page.mk (mock_charges 3 2) true])
      "acct_1" 0 1000 3 []
    = Some (mock_charges 0 3 ++ mock_charges 3 2 ++ [], issued) /\
    length issued = 3%nat.
Proof.
  apply (collects_until_exhausted
           [Page.mk (mock_charges 0 3) true; Page.mk (mock_charges 3 2) true]
           "acct_1" 0 1000 3).
  simpl. lia.
Defined.

Lemma charges_body_calls up acct s e (st : Loop Charge.t) :
  exists call,
    calls (getCharges_body up acct s e st) = calls st ++ [call] /\
    page_call acct s e call.
Proof.
  exists (Call.mk ChargesList (page_params s e (startingAfter st)) acct).
  split.
  - unfold getCharges_body.
    destruct (charges_list up (calls st) (page_params s e (startingAfter st))
                acct); reflexivity.
  - repeat split.
Qed.

Lemma charges_loop_calls up acct s e fuel :
  forall (st out : Loop Charge.t),
  while_hasMore fuel (getCharges_body up acct s e) st = Some out ->
  exists pages,
    calls out = calls st ++ pages /\
    Forall (page_call acct s e) pages /\
    (hasMore st = true -> pages <> []).
Proof.
  induction fuel as [|fuel IH]; intros st out H; simpl in H.
  - destruct (hasMore st) eqn:Hm; [discriminate|]. injection H as <-.
    exists []. rewrite app_nil_r. repeat split; [constructor | discriminate].
  - destruct (hasMore st) eqn:Hm.
    + apply IH in H as (pages & Hcalls & Hpages & _).
      destruct (charges_body_calls up acct s e st) as (call & Hcall & Hpc).
      exists (call :: pages). rewrite Hcalls, Hcall, <- app_assoc.
      repeat split; [constructor; assumption | discriminate].
    + injection H as <-.
      exists []. rewrite app_nil_r. repeat split; [constructor | discriminate].
Qed.

(** X7. Whenever [getCharges] returns, the calls it has issued come after
    the earlier ones, which it leaves as they are: at least one call of the
    pagination loop, each to the charges listing, on the connected account,
    for 100 records of the window, and then the logging probe exactly when
    no charge was found.  It calls nothing else. *)
Theorem charges_call_discipline (stripeInstance : Upstream)
    (connectedAccountId : string) (startTimestamp endTimestamp : Z)
    (fuel : nat) (calls0 issued : list Call.t) (charges : list Charge.t) :
  getCharges stripeInstance connectedAccountId startTimestamp endTimestamp
    fuel calls0 = Some (charges, issued) ->
  exists pages,
    pages <> [] /\
    Forall (page_call connectedAccountId startTimestamp endTimestamp) pages /\
    issued
    = calls0 ++ pages
      ++ (if Z.of_nat (length charges) =? 0
          then [probe_call connectedAccountId] else []).
Proof.
  unfold getCharges. intros H.
  destruct (while_hasMore fuel
              (getCharges_body stripeInstance connectedAccountId
                 startTimestamp endTimestamp) (start_loop calls0))
    as [st|] eqn:Hst; [|discriminate].
  apply charges_loop_calls in Hst as (pages & Hcalls & Hpages & Hne).
  exists pages. split; [apply Hne; reflexivity|]. split; [exact Hpages|].
  simpl in Hcalls.
  destruct (Z.of_nat (length (collected st)) =? 0) eqn:E;
    injection H as <- <-; rewrite E, Hcalls.
  - rewrite <- app_assoc. reflexivity.
  - rewrite app_nil_r. reflexivity.
Qed.

Lemma charges_call_discipline_witness :
  exists pages,
    pages <> [] /\
    Forall (page_call "acct_1" 0 10) pages /\
    [charges_call "acct_1" 0 10 None; charges_call "acct_1" 0 10 None]
    = [] ++ pages
      ++ (if Z.of_nat
               (length [Charge.mk "ch_1" 5 100 None PiNull SrcNull]) =? 0
          then [probe_call "acct_1"] else []).
Proof.
  apply (charges_call_discipline
           (scripted_charges
              [Page.mk [] true;
               Page.mk [Charge.mk "ch_1" 5 100 None PiNull SrcNull] false])
           "acct_1" 0 10 2 []
           [charges_call "acct_1" 0 10 None; charges_call "acct_1" 0 10 None]
           [Charge.mk "ch_1" 5 100 None PiNull SrcNull]).
  reflexivity.
Defined.

(** ** The multi-account orchestrator *)

Lemma sort_insert_sorted x rows :
  newest_first_sorted rows ->
  newest_first_sorted (sort_insert newest_first x rows).
Proof.
  induction rows as [|y rows IH]; simpl; intros Hs.
  - split; constructor.
  - destruct Hs as [Hy Hrest]. unfold newest_first at 1.
    destruct (Z.ltb_spec 0 (date y * 86400000 - date x * 86400000))
      as [Hlt|Hge]; simpl.
    + split; [|apply IH, Hrest].
      apply (Permutation_Forall
               (Permutation_sym (sort_insert_perm newest_first x rows))).
      constructor; [lia | exact Hy].
    + split; [|split; assumption].
      constructor; [lia|].
      revert Hy. apply List.Forall_impl. intros later. lia.
Qed.

Lemma js_sort_sorted rows : newest_first_sorted (js_sort newest_first rows).
Proof.
  induction rows as [|x rows IH]; simpl; [exact I|].
  apply sort_insert_sorted, IH.
Qed.

Lemma sort_insert_day d x rows :
  rows_of_day d (sort_insert newest_first x rows) = rows_of_day d (x :: rows).
Proof.
  unfold rows_of_day.
  induction rows as [|y rows IH]; simpl; [reflexivity|].
  unfold newest_first at 1.
  destruct (Z.ltb_spec 0 (date y * 86400000 - date x * 86400000))
    as [Hlt|Hge]; simpl; [|reflexivity].
  rewrite IH. simpl.
  destruct (Z.eqb_spec (date x) d), (Z.eqb_spec (date y) d);
    try reflexivity; lia.
Qed.

Lemma js_sort_day d rows :
  rows_of_day d (js_sort newest_first rows) = rows_of_day d rows.
Proof.
  induction rows as [|x rows IH]; simpl; [reflexivity|].
  rewrite sort_insert_day. unfold rows_of_day in *. simpl. rewrite IH.
  reflexivity.
Qed.

(** X8. The rows [getMultiAccountTransactions] returns are in newest-first
    order of their dates, and the rows of one date keep the order in which
    the accounts were given. *)
Theorem rows_newest_first
    (new_Stripe : string -> Result unit)
    (accounts_retrieve : string -> Result Account.t)
    (getTransactions :
       string -> string -> Z -> Z -> timezone -> Result (list TransactionData))
    (secretKey : string) (accountIds : list string)
    (startDate endDate : Z) (tz : timezone) (result : MultiAccount.t) :
  getMultiAccountTransactions new_Stripe accounts_retrieve getTransactions
    secretKey accountIds startDate endDate tz = Returns result ->
  newest_first_sorted (MultiAccount.transactions result) /\
  forall d,
    rows_of_day d (MultiAccount.transactions result)
    = rows_of_day d
        (flat_map (account_rows accounts_retrieve getTransactions secretKey
                     startDate endDate tz) accountIds).
Proof.
  unfold getMultiAccountTransactions.
  destruct (new_Stripe secretKey); [|discriminate].
  rewrite process_accounts. simpl app. intros H. injection H as <-.
  cbn [MultiAccount.transactions]. split.
  - apply js_sort_sorted.
  - intros d. apply js_sort_day.
Qed.

Lemma rows_newest_first_witness :
  exists result,
    getMultiAccountTransactions (fun _ => Returns tt) mock_retrieve
      mock_getTransactions "sk_test" ["acct_1"; "acct_2"; "acct_3"] 0 1 UTC
    = Returns result /\
    newest_first_sorted (MultiAccount.transactions result) /\
    map date (MultiAccount.transactions result) = [1; 1; 0; 0].
Proof.
  eexists. split; [reflexivity|]. split.
  - apply (rows_newest_first (fun _ => Returns tt) mock_retrieve
             mock_getTransactions "sk_test" ["acct_1"; "acct_2"; "acct_3"]
             0 1 UTC).
    reflexivity.
  - reflexivity.
Defined.



(** ** Pagination of the report routes *)









(** ** IP addresses *)

Lemma ascii_eqb_code (a b : ascii) :
  Ascii.eqb a b
  = (Z.of_nat (nat_of_ascii a) =? Z.of_nat (nat_of_ascii b)).
Proof.
  destruct (Ascii.eqb_spec a b) as [->|Hne].
  - symmetry. apply Z.eqb_refl.
  - symmetry. apply Z.eqb_neq. intros H. apply Hne.
    rewrite <- (ascii_nat_embedding a), <- (ascii_nat_embedding b).
    f_equal. lia.
Qed.

(** X12. The octet pattern of [isValidIP],
    [25[0-5]|2[0-4][0-9]|[01]?[0-9][0-9]?], accepts exactly the strings of
    one to three decimal digits that write a number up to 255, leading
    zeros included. *)
Theorem octet_is_decimal_byte (s : string) :
  octet s = true <-> decimal_octet s.
Proof.
  unfold octet, decimal_octet, digits_value, digit_value.
  destruct (chars s) as [|a [|b [|c [|d rest]]]]; simpl;
    rewrite ?andb_true_r, ?ascii_eqb_code;
    unfold is_digit, digit_upto;
    change (Z.of_nat (nat_of_ascii "2")) with 50;
    change (Z.of_nat (nat_of_ascii "5")) with 53.
  - split; [discriminate | intros ([H _] & _); lia].
  - set (x := Z.of_nat (nat_of_ascii a)).
    split; [intros H | intros (_ & H & Hv)];
      destruct (Z.leb_spec 48 x), (Z.leb_spec x 57);
      simpl in H; try discriminate H;
      repeat split; simpl; try reflexivity; lia.
  - set (x := Z.of_nat (nat_of_ascii a)).
    set (y := Z.of_nat (nat_of_ascii b)).
    split; [intros H | intros (_ & H & Hv)];
      destruct (Z.leb_spec 48 x), (Z.leb_spec x 57),
        (Z.leb_spec 48 y), (Z.leb_spec y 57);
      simpl in H; try discriminate H;
      repeat split; simpl; try reflexivity; lia.
  - set (x := Z.of_nat (nat_of_ascii a)).
    set (y := Z.of_nat (nat_of_ascii b)).
    set (z := Z.of_nat (nat_of_ascii c)).
    split; [intros H | intros (_ & H & Hv)];
      destruct (Z.eqb_spec x 50), (Z.eqb_spec y 53), (Z.leb_spec 48 x),
        (Z.leb_spec x 57), (Z.leb_spec 48 y), (Z.leb_spec y 57),
        (Z.leb_spec 48 z), (Z.leb_spec z 57), (Z.leb_spec z (48 + 5)),
        (Z.leb_spec y (48 + 4)), (Z.leb_spec x (48 + 1));
      simpl in H; try discriminate H;
      repeat split; simpl; try reflexivity; lia.
  - split; [discriminate | intros ([_ H] & _); simpl in H; lia].
Qed.

Lemma digit_no_space (c : ascii) : is_digit c = true -> is_space c = false.
Proof.
  unfold is_digit, is_space.
  set (x := Z.of_nat (nat_of_ascii c)). intros H.
  apply andb_prop in H as [H1 H2]. apply Z.leb_le in H1, H2.
  destruct (Z.leb_spec 9 x), (Z.leb_spec x 13), (Z.eqb_spec x 32);
    simpl; try reflexivity; lia.
Qed.

Lemma digit_upto_digit (hi : Z) (c : ascii) :
  hi <= 9 -> digit_upto hi c = true -> is_digit c = true.
Proof.
  unfold digit_upto, is_digit.
  set (x := Z.of_nat (nat_of_ascii c)). intros Hhi H.
  apply andb_prop in H as [H1 H2]. apply Z.leb_le in H1, H2.
  apply andb_true_intro. split; apply Z.leb_le; lia.
Qed.

Lemma two_is_digit (c : ascii) : Ascii.eqb c "2" = true -> is_digit c = true.
Proof. intros H. apply Ascii.eqb_eq in H. subst c. reflexivity. Qed.

Lemma five_is_digit (c : ascii) : Ascii.eqb c "5" = true -> is_digit c = true.
Proof. intros H. apply Ascii.eqb_eq in H. subst c. reflexivity. Qed.

Lemma octet_digits (s : string) :
  octet s = true -> Forall (fun c => is_digit c = true) (chars s).
Proof.
  unfold octet.
  destruct (chars s) as [|a [|b [|c [|d rest]]]]; try discriminate; intros H.
  - constructor; [exact H | constructor].
  - apply andb_prop in H as [Ha Hb].
    constructor; [exact Ha|]. constructor; [exact Hb | constructor].
  - assert (Hall : is_digit a = true /\ is_digit b = true
                   /\ is_digit c = true).
    { apply orb_prop in H as [H|H]; [apply orb_prop in H as [H|H]|];
        apply andb_prop in H as [H Hc]; apply andb_prop in H as [Ha Hb].
      - split; [apply two_is_digit, Ha|].
        split; [apply five_is_digit, Hb|].
        apply (digit_upto_digit 5); [lia | exact Hc].
      - split; [apply two_is_digit, Ha|].
        split; [apply (digit_upto_digit 4); [lia | exact Hb] | exact Hc].
      - split; [apply (digit_upto_digit 1); [lia | exact Ha]|].
        split; assumption. }
    destruct Hall as (Ha & Hb & Hc).
    constructor; [exact Ha|]. constructor; [exact Hb|].
    constructor; [exact Hc | constructor].
Qed.

Lemma octet_no_space (s : string) :
  octet s = true -> Forall (fun c => is_space c = false) (chars s).
Proof.
  intros H. apply octet_digits in H. revert H.
  apply List.Forall_impl. exact digit_no_space.
Qed.

Lemma hex_no_space (c : ascii) : is_hex c = true -> is_space c = false.
Proof.
  unfold is_hex, is_digit, is_space.
  set (x := Z.of_nat (nat_of_ascii c)). intros H.
  repeat match goal with
         | H : context [?u <=? ?v] |- _ => destruct (Z.leb_spec u v)
         end; simpl in H; try discriminate H;
  repeat match goal with
         | |- context [?u <=? ?v] => destruct (Z.leb_spec u v)
         | |- context [?u =? ?v] => destruct (Z.eqb_spec u v)
         end; simpl; try reflexivity; lia.
Qed.

Lemma hextet_no_space (s : string) :
  hextet s = true -> Forall (fun c => is_space c = false) (chars s).
Proof.
  unfold hextet. intros H. apply andb_prop in H as [_ H].
  rewrite forallb_forall in H. apply List.Forall_forall.
  intros c Hc. apply hex_no_space, H, Hc.
Qed.

(** A property of every character of the parts of a split, and of the
    separator, is a property of every character of the string. *)
Lemma split_on_chars (P : ascii -> Prop) (sep : ascii) (s : string) :
  P sep ->
  Forall (fun part => Forall P (chars part)) (split_on sep s) ->
  Forall P (chars s).
Proof.
  intros Hsep. induction s as [|c s IH]; simpl; intros H; [constructor|].
  destruct (Ascii.eqb_spec c sep) as [->|Hne].
  - inversion H as [|? ? _ Hrest]; subst. constructor; [exact Hsep|].
    apply IH, Hrest.
  - destruct (split_on sep s) as [|w ws] eqn:E.
    + exfalso. revert E. clear. destruct s as [|c' s]; simpl; [discriminate|].
      destruct (Ascii.eqb c' sep); [discriminate|].
      destruct (split_on sep s); discriminate.
    + inversion H as [|? ? Hw Hws]; subst. simpl in Hw.
      inversion Hw as [|? ? Hc Hw']; subst.
      constructor; [exact Hc|]. apply IH. constructor; assumption.
Qed.

Lemma valid_ip_no_space (ip : string) :
  isValidIP ip = true -> Forall (fun c => is_space c = false) (chars ip).
Proof.
  unfold isValidIP. intros H. apply andb_prop in H as [_ H].
  apply orb_prop in H as [H|H]; apply andb_prop in H as [_ H];
    rewrite forallb_forall in H.
  - apply (split_on_chars _ "."%char); [reflexivity|].
    apply List.Forall_forall. intros part Hpart.
    apply octet_no_space, H, Hpart.
  - apply (split_on_chars _ ":"%char); [reflexivity|].
    apply List.Forall_forall. intros part Hpart.
    apply hextet_no_space, H, Hpart.
Qed.

Lemma trim_start_no_space (cs : list ascii) :
  Forall (fun c => is_space c = false) cs -> trim_start cs = cs.
Proof.
  intros H. destruct H as [|c cs Hc _]; simpl; [reflexivity|].
  rewrite Hc. reflexivity.
Qed.

Lemma trim_valid_ip (ip : string) : isValidIP ip = true -> js_trim ip = ip.
Proof.
  intros H. apply valid_ip_no_space in H. unfold js_trim, chars in *.
  rewrite (trim_start_no_space _ H).
  rewrite trim_start_no_space
    by (apply List.Forall_forall; intros c Hc; apply in_rev in Hc;
        rewrite List.Forall_forall in H; apply H, Hc).
  rewrite rev_involutive. apply string_of_list_ascii_of_string.
Qed.

Lemma first_valid_ip_sound metadata fields ip :
  first_valid_ip metadata fields = Some ip ->
  isValidIP ip = true /\
  exists field, In field fields /\ meta_field metadata field = Some ip.
Proof.
  induction fields as [|field fields IH]; simpl; [discriminate|].
  destruct (meta_field metadata field) as [v|] eqn:Ev.
  - destruct (negb (String.eqb v "") && isValidIP v) eqn:Hv.
    + intros H. injection H as <-.
      apply andb_prop in Hv as [_ Hv]. rewrite (trim_valid_ip v Hv).
      split; [exact Hv|]. exists field. split; [left; reflexivity | exact Ev].
    + intros H. apply IH in H as (Hip & f & Hf & Hm).
      split; [exact Hip|]. exists f. split; [right; exact Hf | exact Hm].
  - intros H. apply IH in H as (Hip & f & Hf & Hm).
    split; [exact Hip|]. exists f. split; [right; exact Hf | exact Hm].
Qed.

(** X13. [extractCustomerIP] returns either the empty string or a value
    that [isValidIP] accepts and that one of the [ipFields] keys holds, as
    it is, in the metadata of the charge, of its expanded payment intent
    or of its source object: trimming changes nothing of an accepted
    value. *)
Theorem extracted_ip_is_valid (charge : Charge.t) :
  extractCustomerIP charge = "" \/
  (isValidIP (extractCustomerIP charge) = true /\
   exists field,
     In field ipFields /\
     (meta_field (Charge.metadata charge) field
      = Some (extractCustomerIP charge) \/
      meta_field (payment_intent_metadata (Charge.payment_intent charge)) field
      = Some (extractCustomerIP charge) \/
      meta_field (source_metadata (Charge.source charge)) field
      = Some (extractCustomerIP charge))).
Proof.
  unfold extractCustomerIP.
  destruct (first_valid_ip (Charge.metadata charge) ipFields) as [ip|] eqn:E1.
  { right. apply first_valid_ip_sound in E1 as (Hip & f & Hf & Hm).
    split; [exact Hip|]. exists f. tauto. }
  destruct (Charge.payment_intent charge) as [|pid|piMetadata] eqn:Epi;
    try destruct (first_valid_ip piMetadata ipFields) as [ip|] eqn:E2;
    try (right; apply first_valid_ip_sound in E2 as (Hip & f & Hf & Hm);
         split; [exact Hip|]; exists f; simpl; tauto).
  all: destruct (Charge.source charge) as [|sid|sourceMetadata] eqn:Es;
    try (left; reflexivity);
    destruct (first_valid_ip sourceMetadata ipFields) as [ip|] eqn:E3;
    try (left; reflexivity);
    right; apply first_valid_ip_sound in E3 as (Hip & f & Hf & Hm);
    (split; [exact Hip|]); exists f; simpl; tauto.
Qed.

(** ** Request validation *)

Lemma multi_route_accepts (moment_parse : string -> option Z)
    (days_ago : Z -> string) (req : Request.t)
    (key : string) (ids : list string) (s e tz : string) :
  multi_route moment_parse days_ago req = CallService key ids s e tz ->
  period_range days_ago req = inr (s, e) /\
  (exists startInstant endInstant,
     moment_parse s = Some startInstant /\
     moment_parse e = Some endInstant /\
     startInstant <= endInstant) /\
  key = Request.secretKey req /\
  ids = (if Request.isMaster req
         then map js_trim (split_on ","%char (Request.accountIds req))
         else [Request.stripeId req]) /\
  tz = defaulted (Request.timezone req) "UTC".
Proof.
  unfold multi_route.
  destruct (period_range days_ago req) as [message|[s' e']]; [discriminate|].
  destruct (moment_parse s') as [si|] eqn:Ps; [|discriminate].
  destruct (moment_parse e') as [ei|] eqn:Pe; [|discriminate].
  destruct (Z.ltb_spec ei si) as [|Hle]; [discriminate|].
  match goal with
  | |- context [if ?guard then BadRequest _ else _] => destruct guard
  end; [discriminate|].
  intros H. injection H as <- <- <- <- <-.
  split; [reflexivity|]. split; [exists si, ei; tauto|].
  repeat split.
Qed.



(** X15. A request reaches the service only with two dates that moment
    parses and of which the first is not after the second; for the custom
    period they are the [start_date] and [end_date] of the request, both
    present and not empty, and for a preset period they come from the
    clock: seven days back for [weekly], thirty for [monthly], one for
    [daily]. *)
Theorem accepted_request_range (moment_parse : string -> option Z)
    (days_ago : Z -> string) (req : Request.t)
    (key : string) (ids : list string) (s e tz : string) :
  multi_route moment_parse days_ago req = CallService key ids s e tz ->
  (exists startInstant endInstant,
     moment_parse s = Some startInstant /\
     moment_parse e = Some endInstant /\
     startInstant <= endInstant) /\
  (defaulted (Request.period req) "custom" = "custom" ->
   Request.start_date req = Some s /\ Request.end_date req = Some e /\
   s <> "" /\ e <> "") /\
  (Request.period req = Some "daily" -> s = days_ago 1 /\ e = days_ago 0) /\
  (Request.period req = Some "weekly" -> s = days_ago 7 /\ e = days_ago 0) /\
  (Request.period req = Some "monthly" -> s = days_ago 30 /\ e = days_ago 0).
Proof.
  intros H. apply multi_route_accepts in H as (Hp & Hparse & _).
  split; [exact Hparse|]. unfold period_range in Hp. repeat split.
  - rewrite H in Hp. simpl in Hp.
    destruct (Request.start_date req) as [s'|]; [|discriminate].
    destruct (Request.end_date req) as [e'|];
      [|rewrite orb_true_r in Hp; discriminate].
    simpl in Hp. destruct (String.eqb s' ""); [discriminate|].
    destruct (String.eqb e' ""); [discriminate|]. simpl in Hp. congruence.
  - rewrite H in Hp. simpl in Hp.
    destruct (Request.start_date req) as [s'|]; [|discriminate].
    destruct (Request.end_date req) as [e'|];
      [|rewrite orb_true_r in Hp; discriminate].
    simpl in Hp. destruct (String.eqb s' ""); [discriminate|].
    destruct (String.eqb e' ""); [discriminate|]. simpl in Hp. congruence.
  - rewrite H in Hp. simpl in Hp.
    destruct (Request.start_date req) as [s'|]; [|discriminate].
    simpl in Hp. destruct (String.eqb_spec s' ""); [discriminate|].
    destruct (missing (Request.end_date req)); [discriminate|].
    simpl in Hp. congruence.
  - rewrite H in Hp. simpl in Hp.
    destruct (Request.start_date req) as [s'|]; [|discriminate].
    destruct (Request.end_date req) as [e'|];
      [|rewrite orb_true_r in Hp; discriminate].
    simpl in Hp. destruct (String.eqb s' ""); [discriminate|].
    destruct (String.eqb_spec e' ""); [discriminate|]. simpl in Hp.
    congruence.
  - rewrite H in Hp. simpl in Hp. congruence.
  - rewrite H in Hp. simpl in Hp. congruence.
  - rewrite H in Hp. simpl in Hp. congruence.
  - rewrite H in Hp. simpl in Hp. congruence.
  - rewrite H in Hp. simpl in Hp. congruence.
  - rewrite H in Hp. simpl in Hp. congruence.
Qed.

Lemma accepted_request_range_witness :
  exists startInstant endInstant,
    mock_moment_parse "2024-03-01" = Some startInstant /\
    mock_moment_parse "2024-03-31" = Some endInstant /\
    startInstant <= endInstant.
Proof.
  apply (accepted_request_range mock_moment_parse mock_days_ago
           (Request.mk "acct_1" (Some "2024-03-01") (Some "2024-03-31")
              None None true "acct_1" "sk_test")
           "sk_test" ["acct_1"] "2024-03-01" "2024-03-31" "UTC").
  vm_compute. reflexivity.
Defined.

(** X16. A period that is none of [daily], [weekly], [monthly] and
    [custom] is answered with a 400 whatever the dates are; an empty
    [period=] is such a period, since only a missing key takes the
    default. *)
Theorem unknown_period_rejected (moment_parse : string -> option Z)
    (days_ago : Z -> string) (req : Request.t) (period : string) :
  Request.period req = Some period ->
  ~ In period ["daily"; "weekly"; "monthly"; "custom"] ->
  multi_route moment_parse days_ago req
  = BadRequest "Invalid period. Use: daily, weekly, monthly, or custom" /\
  detailed_route moment_parse days_ago req
  = BadRequest "Invalid period. Use: daily, weekly, monthly, or custom".
Proof.
  intros Hp Hnot.
  assert (E : period_range days_ago req
              = inl "Invalid period. Use: daily, weekly, monthly, or custom").
  { unfold period_range. rewrite Hp. cbn [defaulted].
    destruct (String.eqb_spec period "daily") as [->|_];
      [exfalso; apply Hnot; simpl; auto|].
    destruct (String.eqb_spec period "weekly") as [->|_];
      [exfalso; apply Hnot; simpl; auto|].
    destruct (String.eqb_spec period "monthly") as [->|_];
      [exfalso; apply Hnot; simpl; auto|].
    destruct (String.eqb_spec period "custom") as [->|_];
      [exfalso; apply Hnot; simpl; auto|].
    reflexivity. }
  unfold multi_route, detailed_route. rewrite E. split; reflexivity.
Qed.

Lemma unknown_period_rejected_witness :
  multi_route mock_moment_parse mock_days_ago
    (Request.mk "acct_1" (Some "2024-03-01") (Some "2024-03-31") None
       (Some "") true "acct_1" "sk_test")
  = BadRequest "Invalid period. Use: daily, weekly, monthly, or custom".
Proof.
  apply (unknown_period_rejected mock_moment_parse mock_days_ago
           (Request.mk "acct_1" (Some "2024-03-01") (Some "2024-03-31") None
              (Some "") true "acct_1" "sk_test") "").
  - reflexivity.
  - simpl. intros [H|[H|[H|[H|[]]]]]; discriminate H.
Defined.

(** ** More on the daily aggregator and on pagination *)

Lemma minor_units_on_range {R : Type} (day_of amount : R -> Z) records
    startDate endDate :
  sumZ (map (fun d => minor_units_on day_of amount d records)
            (seqZ startDate (endDate - startDate + 1)))
  = minor_units_in_range day_of amount startDate endDate records.
Proof.
  unfold minor_units_on, minor_units_in_range.
  induction records as [|r records IH]; simpl.
  - induction (seqZ startDate (endDate - startDate + 1)) as [|d ds IHd];
      simpl; [reflexivity | rewrite IHd; reflexivity].
  - rewrite <- IH. clear IH.
    transitivity
      (sumZ (map (fun d => (if d =? day_of r then 1 else 0) * amount r)
               (seqZ startDate (endDate - startDate + 1)))
       + sumZ (map (fun d =>
                  fold_right (fun r0 total =>
                    if d =? day_of r0 then amount r0 + total else total)
                    0 records)
               (seqZ startDate (endDate - startDate + 1)))).
    + rewrite <- sumZ_map_add. f_equal. apply map_ext. intros d.
      destruct (d =? day_of r); lia.
    + assert (Hscale : forall l,
                sumZ (map (fun d => (if d =? day_of r then 1 else 0)
                                    * amount r) l)
                = sumZ (map (fun d => if d =? day_of r then 1 else 0) l)
                  * amount r).
      { induction l as [|d l IHl]; simpl; [reflexivity | rewrite IHl; lia]. }
      rewrite Hscale.
      destruct (Z.le_gt_cases startDate (endDate + 1)) as [Hle|Hgt].
      * replace (endDate - startDate + 1)
          with (Z.of_nat (Z.to_nat (endDate - startDate + 1))) by lia.
        rewrite sumZ_indicator.
        destruct (Z.leb_spec startDate (day_of r)),
          (Z.leb_spec (day_of r) endDate),
          (Z.ltb_spec (day_of r)
             (startDate + Z.of_nat (Z.to_nat (endDate - startDate + 1))));
          cbn [andb]; lia.
      * rewrite seqZ_nil by lia. simpl.
        destruct (Z.leb_spec startDate (day_of r)),
          (Z.leb_spec (day_of r) endDate); cbn [andb]; lia.
Qed.

Lemma sumQ_cents {A : Type} (f : A -> Q) (g : A -> Z) (l : list A) :
  (forall x, f x == cents (g x)) ->
  sumQ (map f l) == cents (sumZ (map g l)).
Proof.
  intros H. induction l as [|x l IH]; simpl; [reflexivity|].
  rewrite IH, H, cents_add. reflexivity.
Qed.

(** X17. No money is lost or counted twice: over the buckets, the charges
    amounts add up to the charges that fall in the range, in major units,
    the same for refunds and chargebacks, and the net totals add up to
    charges minus refunds minus chargebacks. *)
Theorem amounts_conserved charges refunds chargebacks declines
    startDate endDate tz accountId :
  let days := groupTransactionsByDate charges refunds chargebacks declines
                startDate endDate tz accountId in
  let c := minor_units_in_range (charge_day tz) Charge.amount
             startDate endDate charges in
  let r := minor_units_in_range (refund_day tz) Refund.amount
             startDate endDate refunds in
  let k := minor_units_in_range (dispute_day tz) Dispute.amount
             startDate endDate chargebacks in
  sumQ (map charges_amount days) == cents c /\
  sumQ (map refunds_amount days) == cents r /\
  sumQ (map chargebacks_amount days) == cents k /\
  sumQ (map totals_amount days) == cents (c - r - k).
Proof.
  intros days c r k. unfold days, c, r, k.
  rewrite group_by_day, !map_map.
  rewrite <- !minor_units_on_range.
  repeat split.
  - apply sumQ_cents. intros d.
    apply (day_bucket_money tz charges refunds chargebacks declines
             accountId d).
  - apply sumQ_cents. intros d.
    apply (day_bucket_money tz charges refunds chargebacks declines
             accountId d).
  - apply sumQ_cents. intros d.
    apply (day_bucket_money tz charges refunds chargebacks declines
             accountId d).
  - set (days' := seqZ startDate (endDate - startDate + 1)).
    assert (E : sumZ (map (fun d => minor_units_on (charge_day tz)
                                      Charge.amount d charges) days')
                - sumZ (map (fun d => minor_units_on (refund_day tz)
                                        Refund.amount d refunds) days')
                - sumZ (map (fun d => minor_units_on (dispute_day tz)
                                        Dispute.amount d chargebacks) days')
                = sumZ (map (fun d =>
                     minor_units_on (charge_day tz) Charge.amount d charges
                     - minor_units_on (refund_day tz) Refund.amount d refunds
                     - minor_units_on (dispute_day tz) Dispute.amount d
                         chargebacks) days')).
    { induction days' as [|d ds IHd]; simpl; [reflexivity|]. lia. }
    rewrite E. apply sumQ_cents. intros d.
    apply (day_bucket_money tz charges refunds chargebacks declines
             accountId d).
Qed.


